(** * Student Attendance System: the request handlers of [backend/server.py]

    A shallow embedding of the FastAPI handlers over a document store, and
    the properties of the permission and consistency logic that governs
    classes, students, attendance and the CSV report.

    Conventions of the embedding.
    - A MongoDB collection is the list of its documents in insertion order;
      [find_one], [update_one] and [delete_one] act on the first match,
      [find(...).to_list(n)] keeps the first [n] matches.
    - A handler is a computation over the store that returns a value, raises
      an [HTTPException], or dies on an exception nobody catches.  The store
      it leaves behind is part of every outcome: an exception does not undo
      the writes made before it.
    - [uuid.uuid4()] and [datetime.utcnow()] are inputs of a request: the
      k-th document built while serving it receives [uuid4 e k] and
      [utcnow e k].
    - A [datetime.date] is its proleptic Gregorian ordinal
      ([date.toordinal()]), between 1 (0001-01-01) and 3652059
      (9999-12-31); a [datetime] is a number of microseconds.
    - A document is the record of the fields of its model; the [_id] that
      the store adds is never read by a handler and is left out.  What is
      written goes through BSON: a [datetime] is kept to the millisecond,
      and a [datetime.date] is encoded only by a handle whose codec options
      know how; the handle that [server.py] builds does not ([shipped]).
    - A value that arrives as JSON without a declared type (the values of
      the dicts of [attendance_records], the payload of a token) is a
      [json].
    - Requests are served one after the other. *)

From stdpp Require Import base option list strings gmap pretty.
From Equations Require Import Equations.
From Equations.Prop Require Import Logic.
From Stdlib Require Import ZArith Lia.

Open Scope Z_scope.

(** ** Outcomes of a handler *)

Inductive exn : Type :=
| TypeError                      (* subscripting None *)
| KeyError (key : string)        (* dict[key] on a missing key *)
| OverflowError                  (* date value out of range *)
| InvalidDocument                (* bson: cannot encode object *)
| ValidationError                (* pydantic: a field that is no str *)
| ValueError.                    (* passlib: a password or a hash it refuses *)

Inductive result (A : Type) : Type :=
| Returned (a : A)
| HTTPException (status_code : nat) (detail : string)
| Unhandled (e : exn).
Arguments Returned {A} a.
Arguments HTTPException {A} status_code detail.
Arguments Unhandled {A} e.

#[global] Instance result_ret : MRet result := λ A a, Returned a.
#[global] Instance result_bind : MBind result := λ A B f m,
  match m with
  | Returned a => f a
  | HTTPException c d => HTTPException c d
  | Unhandled e => Unhandled e
  end.

#[global] Instance result_fmap : FMap result := λ A B f m,
  match m with
  | Returned a => Returned (f a)
  | HTTPException c d => HTTPException c d
  | Unhandled e => Unhandled e
  end.

(** The status code a client observes: 200, the code of the
    [HTTPException], or 500 for an exception that escapes the handler. *)
Definition status_of {A} (r : result A) : nat :=
  match r with
  | Returned _ => 200%nat
  | HTTPException c _ => c
  | Unhandled _ => 500%nat
  end.

(** ** Dates *)

Definition date := Z.
Definition datetime := Z.

(** A [datetime] once BSON has stored it: the microseconds below the
    millisecond are dropped. *)
Definition bson_datetime (t : datetime) : datetime := t `div` 1000 * 1000.

Definition MINORDINAL : Z := 1.          (* date.min = 0001-01-01 *)
Definition MAXORDINAL : Z := 3652059.    (* date.max = 9999-12-31 *)

Definition valid_date (d : date) : Prop := MINORDINAL ≤ d ≤ MAXORDINAL.

(** [d + timedelta(days=n)] *)
Definition date_add_days (d : date) (n : Z) : result date :=
  let o := d + n in
  if decide (0 < o ≤ MAXORDINAL) then Returned o else Unhandled OverflowError.

Definition DI400Y : Z := 146097.
Definition DI100Y : Z := 36524.
Definition DI4Y : Z := 1461.

Definition DAYS_IN_MONTH (month : Z) : Z :=
  if decide (month = 2) then 28
  else if decide (month = 4 ∨ month = 6 ∨ month = 9 ∨ month = 11) then 30
  else 31.

Fixpoint days_before_month_aux (k : nat) : Z :=
  match k with
  | O => 0
  | S k' => days_before_month_aux k' + DAYS_IN_MONTH (Z.of_nat k)
  end.

(** Days of a common year that precede the first day of [month]. *)
Definition DAYS_BEFORE_MONTH (month : Z) : Z :=
  days_before_month_aux (Z.to_nat (month - 1)).

(** [date.fromordinal]: ordinal to (year, month, day). *)
Definition ord2ymd (n : Z) : Z * Z * Z :=
  let n := n - 1 in
  let n400 := n `div` DI400Y in
  let n := n `mod` DI400Y in
  let year := n400 * 400 + 1 in
  let n100 := n `div` DI100Y in
  let n := n `mod` DI100Y in
  let n4 := n `div` DI4Y in
  let n := n `mod` DI4Y in
  let n1 := n `div` 365 in
  let n := n `mod` 365 in
  let year := year + n100 * 100 + n4 * 4 + n1 in
  if decide (n1 = 4 ∨ n100 = 4) then (year - 1, 12, 31)
  else
    let leapyear := bool_decide (n1 = 3 ∧ (n4 ≠ 24 ∨ n100 = 3)) in
    let month := Z.shiftr (n + 50) 5 in
    let preceding :=
      DAYS_BEFORE_MONTH month + (if bool_decide (2 < month) && leapyear then 1 else 0) in
    if decide (n < preceding) then
      let month := month - 1 in
      let preceding :=
        preceding - (DAYS_IN_MONTH month
                     + (if bool_decide (month = 2) && leapyear then 1 else 0)) in
      (year, month, n - preceding + 1)
    else (year, month, n - preceding + 1).

Definition digit (n : Z) : string :=
  String (Ascii.ascii_of_nat (48 + Z.to_nat (n `mod` 10))) EmptyString.

Definition zfill2 (n : Z) : string := digit (n `div` 10) +:+ digit n.
Definition zfill4 (n : Z) : string :=
  digit (n `div` 1000) +:+ digit (n `div` 100) +:+ digit (n `div` 10) +:+ digit n.

(** [str(d)] and [d.isoformat()]: the year on four digits. *)
Definition isoformat (d : date) : string :=
  let '(y, m, dd) := ord2ymd d in
  zfill4 y +:+ "-" +:+ zfill2 m +:+ "-" +:+ zfill2 dd.

(** [d.strftime("%Y-%m-%d")], which CPython hands to the C library: glibc
    writes [%Y] without padding, so a year before 1000 has fewer than four
    digits (999-12-31, where [isoformat] gives 0999-12-31). *)
Definition strftime_Y_m_d (d : date) : string :=
  let '(y, m, dd) := ord2ymd d in
  pretty y +:+ "-" +:+ zfill2 m +:+ "-" +:+ zfill2 dd.

(** ** Untyped JSON values *)

(** A JSON value, as far as a handler can tell values apart: a string,
    [null], or anything else (a number, a boolean, a list, an object).  Of
    such a value the handlers use its truth value ([if not user_id]) and
    what the [str] validation of a model field makes of it: [None] when
    the value is refused, [Some s] when it is coerced to [s], as some
    versions of the validator do with a number. *)
Inductive json : Type :=
| JString (s : string)
| JNull
| JOther (truth : bool) (as_str : option string).

(** [bool(v)] *)
Definition json_truthy (v : json) : bool :=
  match v with
  | JString s => bool_decide (s ≠ EmptyString)
  | JNull => false
  | JOther truth _ => truth
  end.

(** The validation of a field declared [str]. *)
Definition validate_str (v : json) : result string :=
  match v with
  | JString s => Returned s
  | JNull => Unhandled ValidationError
  | JOther _ (Some s) => Returned s
  | JOther _ None => Unhandled ValidationError
  end.

(** ** Models *)

Module User.
Record t : Type := mk {
    id : string; username : string; email : string;
    password_hash : string; role : string; created_at : datetime }.
End User.

Module UserCreate.
Record t : Type := mk {
    username : string; email : string; password : string; role : string }.
End UserCreate.

Module UserResponse.
Record t : Type := mk {
    id : string; username : string; email : string;
    role : string; created_at : datetime }.
End UserResponse.

Module Class.
Record t : Type := mk {
    id : string; name : string; subject : string;
    teacher_id : string; created_at : datetime }.
End Class.

Module ClassCreate.
Record t : Type := mk { name : string; subject : string; teacher_id : string }.
End ClassCreate.

Module Student.
Record t : Type := mk {
    id : string; name : string; email : string;
    class_id : string; roll_number : string; created_at : datetime }.
End Student.

Module StudentCreate.
Record t : Type := mk {
    name : string; email : string; class_id : string; roll_number : string }.
End StudentCreate.

Module Attendance.
Record t : Type := mk {
    id : string; class_id : string; student_id : string;
    date : date; status : string; created_at : datetime }.
End Attendance.

(** [attendance_records] is a [List[dict]]: nothing says which keys a
    record carries, nor what the values are. *)
Module AttendanceBulkCreate.
Record t : Type := mk {
    class_id : string; date : date;
    attendance_records : list (gmap string json) }.
End AttendanceBulkCreate.

(** One row of the answer of [get_attendance]. *)
Module AttendanceRow.
Record t : Type := mk {
    student_id : string; student_name : string;
    roll_number : string; status : string }.
End AttendanceRow.

(** The answer of the two authentication routes. *)
Module AuthReply.
Record t : Type := mk {
    message : string; token : string; user : UserResponse.t }.
End AuthReply.

(** ** The document store *)

(** The database handle: the four collections, and whether the codec
    options of the handle can encode a [datetime.date]. *)
Record db : Type := mkdb {
  encodes_date : bool;
  users : list User.t;
  classes : list Class.t;
  students : list Student.t;
  attendance : list Attendance.t }.

(** The handle of [server.py], [AsyncIOMotorClient(mongo_url)[DB_NAME]]:
    no codec options are given, and the default ones have no encoder for
    [datetime.date]. *)
Definition shipped (s : db) : Prop := encodes_date s = false.

(** A document as the store keeps it: the one that was written, with its
    [created_at] at the precision of BSON. *)
Class Bson (A : Type) := as_stored : A → A.

#[global] Instance User_bson : Bson User.t := λ u,
  User.mk (User.id u) (User.username u) (User.email u) (User.password_hash u)
    (User.role u) (bson_datetime (User.created_at u)).
#[global] Instance Class_bson : Bson Class.t := λ c,
  Class.mk (Class.id c) (Class.name c) (Class.subject c) (Class.teacher_id c)
    (bson_datetime (Class.created_at c)).
#[global] Instance Student_bson : Bson Student.t := λ st,
  Student.mk (Student.id st) (Student.name st) (Student.email st)
    (Student.class_id st) (Student.roll_number st)
    (bson_datetime (Student.created_at st)).
#[global] Instance Attendance_bson : Bson Attendance.t := λ a,
  Attendance.mk (Attendance.id a) (Attendance.class_id a) (Attendance.student_id a)
    (Attendance.date a) (Attendance.status a)
    (bson_datetime (Attendance.created_at a)).

Section Collection.
Context {A : Type} `{!Bson A} (P : A → Prop) `{!∀ x, Decision (P x)}.

Definition find_one (l : list A) : option A := snd <$> list_find P l.

Definition find (l : list A) : list A := filter P l.

Fixpoint update_one (doc : A) (l : list A) : list A :=
    match l with
    | [] => []
    | x :: l' => if decide (P x) then as_stored doc :: l' else x :: update_one doc l'
    end.

Fixpoint delete_one (l : list A) : list A :=
    match l with
    | [] => []
    | x :: l' => if decide (P x) then l' else x :: delete_one l'
    end.

Definition delete_many (l : list A) : list A := filter (λ x, ¬ P x) l.
End Collection.

Definition to_list {A} (n : nat) (cursor : list A) : list A := take n cursor.
Definition insert_one {A} `{!Bson A} (doc : A) (l : list A) : list A :=
  l ++ [as_stored doc].
Definition insert_many {A} `{!Bson A} (docs : list A) (l : list A) : list A :=
  l ++ (as_stored <$> docs).

(** ** Handlers as computations over the store *)

Definition M (A : Type) : Type := db → result A * db.

#[global] Instance M_ret : MRet M := λ A a s, (Returned a, s).
#[global] Instance M_bind : MBind M := λ A B f m s,
  match m s with
  | (Returned a, s') => f a s'
  | (HTTPException c d, s') => (HTTPException c d, s')
  | (Unhandled e, s') => (Unhandled e, s')
  end.

Definition raise {A} (status_code : nat) (detail : string) : M A :=
  λ s, (HTTPException status_code detail, s).
Definition throw {A} (e : exn) : M A := λ s, (Unhandled e, s).
Definition gets {A} (f : db → A) : M A := λ s, (Returned (f s), s).
Definition modify (f : db → db) : M unit := λ s, (Returned (), f s).
Definition lift {A} (r : result A) : M A := λ s, (r, s).

Definition set_users (f : list User.t → list User.t) (s : db) : db :=
  mkdb (encodes_date s) (f (users s)) (classes s) (students s) (attendance s).
Definition set_classes (f : list Class.t → list Class.t) (s : db) : db :=
  mkdb (encodes_date s) (users s) (f (classes s)) (students s) (attendance s).
Definition set_students (f : list Student.t → list Student.t) (s : db) : db :=
  mkdb (encodes_date s) (users s) (classes s) (f (students s)) (attendance s).
Definition set_attendance (f : list Attendance.t → list Attendance.t) (s : db) : db :=
  mkdb (encodes_date s) (users s) (classes s) (students s) (f (attendance s)).

(** A filter that holds a [datetime.date] is encoded when the command is
    sent: a handle that cannot encode it raises [InvalidDocument], and the
    command never reaches the server. *)
Definition bson_encode_date : M unit :=
  λ s, if encodes_date s then (Returned (), s) else (Unhandled InvalidDocument, s).

(** The per-request source of fresh identifiers, of the clock, and of the
    salt that [pwd_context.hash] draws. *)
Record env : Type := mkenv {
  uuid4 : nat → string; utcnow : nat → datetime; gensalt : string }.

(** A [Class] or a [Student] built from the fields of a payload: the
    default factories supply a fresh [id] and [created_at = utcnow()]. *)
Definition Class_of_payload (e : env) (class_data : ClassCreate.t) : Class.t :=
  Class.mk (uuid4 e 0) (ClassCreate.name class_data) (ClassCreate.subject class_data)
    (ClassCreate.teacher_id class_data) (utcnow e 0).

Definition Student_of_payload (e : env) (student_data : StudentCreate.t) : Student.t :=
  Student.mk (uuid4 e 0) (StudentCreate.name student_data)
    (StudentCreate.email student_data) (StudentCreate.class_id student_data)
    (StudentCreate.roll_number student_data) (utcnow e 0).

(** The [User] built at registration, and the [UserResponse] made of its
    fields. *)
Definition User_of_payload (e : env) (user_data : UserCreate.t)
    (hashed_password : string) : User.t :=
  User.mk (uuid4 e 0) (UserCreate.username user_data) (UserCreate.email user_data)
    hashed_password (UserCreate.role user_data) (utcnow e 0).

Definition UserResponse_of_user (user : User.t) : UserResponse.t :=
  UserResponse.mk (User.id user) (User.username user) (User.email user)
    (User.role user) (User.created_at user).

(** [doc.id = new_id] *)
Definition Class_set_id (new_id : string) (c : Class.t) : Class.t :=
  Class.mk new_id (Class.name c) (Class.subject c) (Class.teacher_id c)
    (Class.created_at c).

Definition Student_set_id (new_id : string) (st : Student.t) : Student.t :=
  Student.mk new_id (Student.name st) (Student.email st) (Student.class_id st)
    (Student.roll_number st) (Student.created_at st).

(** The truth value of an optional string: [if class_id:], [if not user_id:]. *)
Definition truthy (value : option string) : bool :=
  match value with
  | Some c => bool_decide (c ≠ EmptyString)
  | None => false
  end.

(** ** Passwords *)

Fixpoint has_nul (secret : string) : bool :=
  match secret with
  | EmptyString => false
  | String c secret' => bool_decide (c = Ascii.zero) || has_nul secret'
  end.

Definition MAX_PASSWORD_SIZE : nat := 4096.

(** What passlib demands of a password before the scheme works on it: at
    most [MAX_PASSWORD_SIZE] characters, or it raises [PasswordSizeError],
    and, for bcrypt, no NUL character, or it raises [NullPasswordError];
    both are [ValueError]s. *)
Definition password_accepted (secret : string) : bool :=
  bool_decide (String.length secret ≤ MAX_PASSWORD_SIZE)%nat && negb (has_nul secret).

Section Passwords.
(** The scheme itself is opaque: [bcrypt_hash salt password] is the digest
    of an accepted password under the salt drawn for it, and
    [bcrypt_verify plain_password hashed_password] is the verdict on an
    accepted password, or [None] when passlib raises on the stored hash,
    which it does on a string it cannot read as a bcrypt hash. *)
Variable bcrypt_hash : string → string → string.
Variable bcrypt_verify : string → string → option bool.

(** [pwd_context.hash(password)] *)
Definition hash_password (salt password : string) : result string :=
  if password_accepted password then Returned (bcrypt_hash salt password)
  else Unhandled ValueError.

(** [pwd_context.verify(plain_password, hashed_password)] *)
Definition verify_password (plain_password hashed_password : string) : result bool :=
  if password_accepted plain_password then
    match bcrypt_verify plain_password hashed_password with
    | Some verdict => Returned verdict
    | None => Unhandled ValueError
    end
  else Unhandled ValueError.
End Passwords.

(** ** Authentication routes *)

Section Credentials.
(** The token primitives are opaque: [create_jwt_token user_id] is the
    token signed for the payload [{"user_id": user_id}], and
    [decode_jwt_token token] is the payload of a token, a JSON object of
    which nothing else is known, or the 401 "Invalid token" raised for a
    token that does not verify.  [find_one_by_filter v users] is the answer
    of the server to [find_one({"id": v})] for a [v] that is not a string:
    the first user an operator document such as [{"$ne": ...}] selects, no
    user, or the error of a filter the server refuses. *)
Variable bcrypt_hash : string → string → string.
Variable create_jwt_token : string → string.
Variable decode_jwt_token : string → result (gmap string json).
Variable find_one_by_filter : json → list User.t → result (option User.t).

(** [db.users.find_one({"id": user_id})] *)
Definition find_one_user (user_id : json) : M (option User.t) :=
  match user_id with
  | JString user_id => gets (λ s, find_one (λ u, User.id u = user_id) (users s))
  | _ => λ s, (find_one_by_filter user_id (users s), s)
  end.

Definition get_current_user (token : string) : M UserResponse.t :=
  payload ← lift (decode_jwt_token token);
  let user_id := payload !! "user_id" in
  match user_id with
  | Some user_id =>
    if negb (json_truthy user_id) then raise 401 "Invalid token"
    else
      user ← find_one_user user_id;
      match user with
      | None => raise 401 "User not found"
      | Some user => mret (UserResponse_of_user user)
      end
  | None => raise 401 "Invalid token"
  end.

Definition register_user (e : env) (user_data : UserCreate.t) : M AuthReply.t :=
  existing_user ← gets (λ s,
    find_one (λ u, User.email u = UserCreate.email user_data) (users s));
  match existing_user with
  | Some _ => raise 400 "Email already registered"
  | None =>
    hashed_password ← lift (hash_password bcrypt_hash (gensalt e)
                              (UserCreate.password user_data));
    let user := User_of_payload e user_data hashed_password in
    _ ← modify (set_users (insert_one user));
    let token := create_jwt_token (User.id user) in
    mret (AuthReply.mk "User registered successfully" token
            (UserResponse_of_user user))
  end.
End Credentials.

(** ** Classes routes *)

Definition get_classes (current_user : UserResponse.t) : M (list Class.t) :=
  if decide (UserResponse.role current_user = "teacher") then
    gets (λ s, to_list 1000
      (find (λ c, Class.teacher_id c = UserResponse.id current_user) (classes s)))
  else (* admin *)
    gets (λ s, to_list 1000 (classes s)).

Definition create_class (e : env) (class_data : ClassCreate.t)
    (current_user : UserResponse.t) : M Class.t :=
  if bool_decide (UserResponse.role current_user ≠ "admin")
     && bool_decide (ClassCreate.teacher_id class_data ≠ UserResponse.id current_user)
  then raise 403 "Not authorized to create class for another teacher"
  else
    let new_class := Class_of_payload e class_data in
    _ ← modify (set_classes (insert_one new_class));
    mret new_class.

Definition update_class (e : env) (class_id : string) (class_data : ClassCreate.t)
    (current_user : UserResponse.t) : M Class.t :=
  existing_class ← gets (λ s, find_one (λ c, Class.id c = class_id) (classes s));
  match existing_class with
  | None => raise 404 "Class not found"
  | Some existing_class =>
    if bool_decide (UserResponse.role current_user ≠ "admin")
       && bool_decide (Class.teacher_id existing_class ≠ UserResponse.id current_user)
    then raise 403 "Not authorized to update this class"
    else
      let updated_class := Class_of_payload e class_data in
      let updated_class := Class_set_id class_id updated_class in
      _ ← modify (set_classes (update_one (λ c, Class.id c = class_id) updated_class));
      mret updated_class
  end.

Definition delete_class (class_id : string) (current_user : UserResponse.t) : M string :=
  existing_class ← gets (λ s, find_one (λ c, Class.id c = class_id) (classes s));
  match existing_class with
  | None => raise 404 "Class not found"
  | Some existing_class =>
    if bool_decide (UserResponse.role current_user ≠ "admin")
       && bool_decide (Class.teacher_id existing_class ≠ UserResponse.id current_user)
    then raise 403 "Not authorized to delete this class"
    else
      _ ← modify (set_classes (delete_one (λ c, Class.id c = class_id)));
      mret "Class deleted successfully"
  end.

(** ** Students routes *)

(** The query document of [get_students]: [{}] or [{"class_id": c}]. *)
Definition student_query (query : option string) (st : Student.t) : Prop :=
  match query with
  | Some c => Student.class_id st = c
  | None => True
  end.

#[global] Instance student_query_dec query st : Decision (student_query query st).
Proof. destruct query; simpl; apply _. Defined.

Definition get_students (class_id : option string)
    (current_user : UserResponse.t) : M (list Student.t) :=
  let query := if truthy class_id then class_id else None in
  gets (λ s, to_list 1000 (find (student_query query) (students s))).

Definition create_student (e : env) (student_data : StudentCreate.t)
    (current_user : UserResponse.t) : M Student.t :=
  class_doc ← gets (λ s,
    find_one (λ c, Class.id c = StudentCreate.class_id student_data) (classes s));
  match class_doc with
  | None => raise 404 "Class not found"
  | Some class_doc =>
    if bool_decide (UserResponse.role current_user ≠ "admin")
       && bool_decide (Class.teacher_id class_doc ≠ UserResponse.id current_user)
    then raise 403 "Not authorized to add student to this class"
    else
      let new_student := Student_of_payload e student_data in
      _ ← modify (set_students (insert_one new_student));
      mret new_student
  end.

(** [class_doc["teacher_id"]] where [class_doc] is what [find_one] gave
    back, [None] included. *)
Definition subscript_teacher_id (class_doc : option Class.t) : M string :=
  match class_doc with
  | Some c => mret (Class.teacher_id c)
  | None => throw TypeError
  end.

(** [current_user.role != "admin" and class_doc["teacher_id"] != current_user.id]:
    the right operand is evaluated only when the left one holds. *)
Definition not_admin_and_not_owner (current_user : UserResponse.t)
    (class_doc : option Class.t) : M bool :=
  if bool_decide (UserResponse.role current_user ≠ "admin") then
    teacher_id ← subscript_teacher_id class_doc;
    mret (bool_decide (teacher_id ≠ UserResponse.id current_user))
  else mret false.

Definition update_student (e : env) (student_id : string)
    (student_data : StudentCreate.t) (current_user : UserResponse.t) : M Student.t :=
  existing_student ← gets (λ s,
    find_one (λ st, Student.id st = student_id) (students s));
  match existing_student with
  | None => raise 404 "Student not found"
  | Some existing_student =>
    class_doc ← gets (λ s,
      find_one (λ c, Class.id c = StudentCreate.class_id student_data) (classes s));
    denied ← not_admin_and_not_owner current_user class_doc;
    if denied : bool then raise 403 "Not authorized to update this student"
    else
      let updated_student := Student_of_payload e student_data in
      let updated_student := Student_set_id student_id updated_student in
      _ ← modify (set_students
                    (update_one (λ st, Student.id st = student_id) updated_student));
      mret updated_student
  end.

Definition delete_student (student_id : string)
    (current_user : UserResponse.t) : M string :=
  existing_student ← gets (λ s,
    find_one (λ st, Student.id st = student_id) (students s));
  match existing_student with
  | None => raise 404 "Student not found"
  | Some existing_student =>
    class_doc ← gets (λ s,
      find_one (λ c, Class.id c = Student.class_id existing_student) (classes s));
    denied ← not_admin_and_not_owner current_user class_doc;
    if denied : bool then raise 403 "Not authorized to delete this student"
    else
      _ ← modify (set_students (delete_one (λ st, Student.id st = student_id)));
      mret "Student deleted successfully"
  end.

(** ** Attendance routes *)

(** [record[key]] on one of the dicts of [attendance_records]. *)
Definition getitem (record : gmap string json) (key : string) : result json :=
  match record !! key with
  | Some v => Returned v
  | None => Unhandled (KeyError key)
  end.

(** The loop that builds one [Attendance] per input record; [k] counts the
    documents built so far.  The two subscripts are the arguments of the
    constructor, which then validates its [str] fields. *)
Fixpoint build_attendance_records (e : env) (class_id : string) (d : date)
    (k : nat) (records : list (gmap string json)) : result (list Attendance.t) :=
  match records with
  | [] => Returned []
  | record :: records' =>
    student_id ← getitem record "student_id";
    status ← getitem record "status";
    student_id ← validate_str student_id;
    status ← validate_str status;
    let attendance := Attendance.mk (uuid4 e k) class_id student_id d status (utcnow e k) in
    rest ← build_attendance_records e class_id d (S k) records';
    mret (attendance :: rest)
  end.

Definition mark_bulk_attendance (e : env) (attendance_data : AttendanceBulkCreate.t)
    (current_user : UserResponse.t) : M string :=
  let class_id := AttendanceBulkCreate.class_id attendance_data in
  let d := AttendanceBulkCreate.date attendance_data in
  class_doc ← gets (λ s, find_one (λ c, Class.id c = class_id) (classes s));
  match class_doc with
  | None => raise 404 "Class not found"
  | Some class_doc =>
    if bool_decide (UserResponse.role current_user ≠ "admin")
       && bool_decide (Class.teacher_id class_doc ≠ UserResponse.id current_user)
    then raise 403 "Not authorized to mark attendance for this class"
    else
      _ ← bson_encode_date;
      _ ← modify (set_attendance
            (delete_many (λ a, Attendance.class_id a = class_id ∧ Attendance.date a = d)));
      attendance_records ← lift (build_attendance_records e class_id d 0
                                   (AttendanceBulkCreate.attendance_records attendance_data));
      _ ← match attendance_records with
          | [] => mret ()
          | _ :: _ =>
              _ ← bson_encode_date;
              modify (set_attendance (insert_many attendance_records))
          end;
      mret ("Attendance marked for " +:+ pretty (length attendance_records)
            +:+ " students")
  end.

(** [{record["student_id"]: record["status"] for record in attendance_records}] *)
Definition status_by_student (attendance_records : list Attendance.t)
    : gmap string string :=
  foldl (λ m record, <[Attendance.student_id record := Attendance.status record]> m)
        ∅ attendance_records.

Definition get_attendance (class_id : string) (d : date)
    (current_user : UserResponse.t) : M (list AttendanceRow.t) :=
  class_doc ← gets (λ s, find_one (λ c, Class.id c = class_id) (classes s));
  match class_doc with
  | None => raise 404 "Class not found"
  | Some class_doc =>
    if bool_decide (UserResponse.role current_user ≠ "admin")
       && bool_decide (Class.teacher_id class_doc ≠ UserResponse.id current_user)
    then raise 403 "Not authorized to view attendance for this class"
    else
      students ← gets (λ s, to_list 1000
        (find (λ st, Student.class_id st = class_id) (students s)));
      _ ← bson_encode_date;
      attendance_records ← gets (λ s, to_list 1000
        (find (λ a, Attendance.class_id a = class_id ∧ Attendance.date a = d)
              (attendance s)));
      let attendance_map := status_by_student attendance_records in
      mret ((λ student,
               AttendanceRow.mk (Student.id student) (Student.name student)
                 (Student.roll_number student)
                 (default "not_marked" (attendance_map !! Student.id student)))
            <$> students)
  end.

(** The [while current_date <= end_date] loop of the report header. *)
Equations? date_range_loop (current_date end_date : date) (date_range : list string)
    : result (list string) by wf (Z.to_nat (end_date - current_date + 1)) lt :=
  date_range_loop current_date end_date date_range
    with decide (current_date ≤ end_date) => {
    | right _ := Returned date_range;
    | left _ with inspect (date_add_days current_date 1) => {
      | exist _ (Returned next) Hnext :=
          date_range_loop next end_date
            (date_range ++ [strftime_Y_m_d current_date]);
      | exist _ (HTTPException c msg) _ := HTTPException c msg;
      | exist _ (Unhandled err) _ := Unhandled err } }.
Proof.
  unfold date_add_days in Hnext.
  destruct (decide (0 < current_date + 1 ≤ MAXORDINAL)); [|discriminate].
  injection Hnext as <-. lia.
Qed.

(** The rows handed to [csv.writer], header first, and the
    [Content-Disposition] header of the response. *)
Module CsvReport.
Record t : Type := mk { rows : list (list string); content_disposition : string }.
End CsvReport.

(** The map keyed by ["<student_id>_<date>"]. *)
Definition status_by_student_and_date (attendance_records : list Attendance.t)
    : gmap string string :=
  foldl (λ m record,
           <[Attendance.student_id record +:+ "_" +:+ isoformat (Attendance.date record)
             := Attendance.status record]> m)
        ∅ attendance_records.

Definition download_attendance_csv (class_id : string) (start_date end_date : date)
    (current_user : UserResponse.t) : M CsvReport.t :=
  class_doc ← gets (λ s, find_one (λ c, Class.id c = class_id) (classes s));
  match class_doc with
  | None => raise 404 "Class not found"
  | Some class_doc =>
    if bool_decide (UserResponse.role current_user ≠ "admin")
       && bool_decide (Class.teacher_id class_doc ≠ UserResponse.id current_user)
    then raise 403 "Not authorized to generate report for this class"
    else
      students ← gets (λ s, to_list 1000
        (find (λ st, Student.class_id st = class_id) (students s)));
      _ ← bson_encode_date;
      attendance_records ← gets (λ s, to_list 1000
        (find (λ a, Attendance.class_id a = class_id
                    ∧ start_date ≤ Attendance.date a ≤ end_date)
              (attendance s)));
      date_range ← lift (date_range_loop start_date end_date []);
      let header := ["Student Name"; "Roll Number"] ++ date_range in
      let attendance_map := status_by_student_and_date attendance_records in
      let data_rows :=
        (λ student,
           [Student.name student; Student.roll_number student]
           ++ ((λ date_str,
                  default "not_marked"
                    (attendance_map !! (Student.id student +:+ "_" +:+ date_str)))
               <$> date_range))
        <$> students in
      mret (CsvReport.mk (header :: data_rows)
              ("attachment; filename=attendance_report_" +:+ class_id +:+ "_"
               +:+ isoformat start_date +:+ "_" +:+ isoformat end_date +:+ ".csv"))
  end.

(** ** The routes guarded by the ownership check *)

Inductive request : Type :=
| POST_classes (class_data : ClassCreate.t)
| PUT_classes (class_id : string) (class_data : ClassCreate.t)
| DELETE_classes (class_id : string)
| POST_students (student_data : StudentCreate.t)
| PUT_students (student_id : string) (student_data : StudentCreate.t)
| DELETE_students (student_id : string)
| POST_attendance_bulk (attendance_data : AttendanceBulkCreate.t)
| GET_attendance (class_id : string) (d : date)
| GET_attendance_report_csv (class_id : string) (start_date end_date : date).

Inductive body : Type :=
| ClassBody (c : Class.t)
| StudentBody (st : Student.t)
| MessageBody (message : string)
| AttendanceBody (rows : list AttendanceRow.t)
| CsvBody (report : CsvReport.t).

(** [api_router]: each request goes to its handler. *)
Definition api_router (e : env) (current_user : UserResponse.t) (req : request) : M body :=
  match req with
  | POST_classes class_data =>
      c ← create_class e class_data current_user; mret (ClassBody c)
  | PUT_classes class_id class_data =>
      c ← update_class e class_id class_data current_user; mret (ClassBody c)
  | DELETE_classes class_id =>
      m ← delete_class class_id current_user; mret (MessageBody m)
  | POST_students student_data =>
      st ← create_student e student_data current_user; mret (StudentBody st)
  | PUT_students student_id student_data =>
      st ← update_student e student_id student_data current_user; mret (StudentBody st)
  | DELETE_students student_id =>
      m ← delete_student student_id current_user; mret (MessageBody m)
  | POST_attendance_bulk attendance_data =>
      m ← mark_bulk_attendance e attendance_data current_user; mret (MessageBody m)
  | GET_attendance class_id d =>
      rows ← get_attendance class_id d current_user; mret (AttendanceBody rows)
  | GET_attendance_report_csv class_id start_date end_date =>
      r ← download_attendance_csv class_id start_date end_date current_user;
      mret (CsvBody r)
  end.

(** ** The vocabulary of the specification *)

(** The authorization rule: [actor.role == "admin" OR actor.id == ownerTeacherId]. *)
Definition canMutate (actor : UserResponse.t) (ownerTeacherId : string) : bool :=
  bool_decide (UserResponse.role actor = "admin")
  || bool_decide (UserResponse.id actor = ownerTeacherId).

Definition class_by_id (s : db) (class_id : string) : option Class.t :=
  find_one (λ c, Class.id c = class_id) (classes s).

Definition student_by_id (s : db) (student_id : string) : option Student.t :=
  find_one (λ st, Student.id st = student_id) (students s).

(** The owner of a class is the teacher recorded on it; the owner of a
    student is the owner of the class the stored student belongs to. *)
Definition class_owner (s : db) (class_id : string) : option string :=
  Class.teacher_id <$> class_by_id s class_id.

Definition student_owner (s : db) (student_id : string) : option string :=
  st ← student_by_id s student_id; class_owner s (Student.class_id st).

(** The stored resource a request names, and that its handler looks up
    first, is missing; a class creation names none. *)
Definition target_missing (s : db) (req : request) : bool :=
  match req with
  | POST_classes _ => false
  | PUT_classes class_id _ | DELETE_classes class_id
  | GET_attendance class_id _ | GET_attendance_report_csv class_id _ _ =>
      bool_decide (class_by_id s class_id = None)
  | POST_students student_data =>
      bool_decide (class_by_id s (StudentCreate.class_id student_data) = None)
  | POST_attendance_bulk attendance_data =>
      bool_decide (class_by_id s (AttendanceBulkCreate.class_id attendance_data) = None)
  | PUT_students student_id _ | DELETE_students student_id =>
      bool_decide (student_by_id s student_id = None)
  end.

(** The teacher id each handler hands to the rule, when there is one: the
    [teacher_id] of the payload for a class creation, of the stored class
    for the requests that name a class, of the stored student's class for a
    student deletion, and of the class named by the payload's [class_id]
    for a student creation or update. *)
Definition policy_owner (s : db) (req : request) : option string :=
  match req with
  | POST_classes class_data => Some (ClassCreate.teacher_id class_data)
  | PUT_classes class_id _ | DELETE_classes class_id
  | GET_attendance class_id _ | GET_attendance_report_csv class_id _ _ =>
      class_owner s class_id
  | POST_students student_data =>
      class_owner s (StudentCreate.class_id student_data)
  | POST_attendance_bulk attendance_data =>
      class_owner s (AttendanceBulkCreate.class_id attendance_data)
  | PUT_students student_id student_data =>
      _ ← student_by_id s student_id;
      class_owner s (StudentCreate.class_id student_data)
  | DELETE_students student_id => student_owner s student_id
  end.

(** The owner of the resource a request mutates, in the sense of the
    specification: as [policy_owner], except that a student update is a
    mutation of the stored student. *)
Definition resource_owner (s : db) (req : request) : option string :=
  match req with
  | PUT_students student_id _ => student_owner s student_id
  | _ => policy_owner s req
  end.

(** The partition of the ledger for one class and one day. *)
Definition in_partition (class_id : string) (d : date) (a : Attendance.t) : Prop :=
  Attendance.class_id a = class_id ∧ Attendance.date a = d.

#[global] Instance in_partition_dec class_id d a : Decision (in_partition class_id d a).
Proof. unfold in_partition. apply _. Defined.

Definition partition (s : db) (class_id : string) (d : date) : list Attendance.t :=
  filter (in_partition class_id d) (attendance s).

Definition students_of (s : db) (class_id : string) : list Student.t :=
  filter (λ st, Student.class_id st = class_id) (students s).

(** The status the last of the rows [rows] records for a student. *)
Definition last_status (rows : list Attendance.t) (student_id : string) : option string :=
  Attendance.status <$>
    last (filter (λ a, Attendance.student_id a = student_id) rows).

(** The message of a successful bulk write of [n] records. *)
Definition bulk_message (n : nat) : string :=
  "Attendance marked for " +:+ pretty n +:+ " students".

(** The row [get_attendance] emits for a student, given the map of the
    statuses. *)
Definition attendance_row (attendance_map : gmap string string)
    (student : Student.t) : AttendanceRow.t :=
  AttendanceRow.mk (Student.id student) (Student.name student)
    (Student.roll_number student)
    (default "not_marked" (attendance_map !! Student.id student)).

(** The days from [start_date] to [end_date], both included; none when
    [end_date] comes first. *)
Definition days_between (start_date end_date : date) : list date :=
  seqZ start_date (end_date - start_date + 1).

(** The first row of a report. *)
Definition header_of (report : CsvReport.t) : list string :=
  default [] (head (CsvReport.rows report)).

(** The data row of a report for one student. *)
Definition csv_data_row (attendance_map : gmap string string)
    (date_range : list string) (student : Student.t) : list string :=
  [Student.name student; Student.roll_number student]
  ++ ((λ date_str,
         default "not_marked"
           (attendance_map !! (Student.id student +:+ "_" +:+ date_str)))
      <$> date_range).

(** The report of a class over the date columns [date_range]. *)
Definition csv_report (s : db) (class_id : string) (start_date end_date : date)
    (date_range : list string) : CsvReport.t :=
  CsvReport.mk
    ((["Student Name"; "Roll Number"] ++ date_range)
     :: (csv_data_row
           (status_by_student_and_date
              (take 1000
                 (filter (λ a, Attendance.class_id a = class_id
                               ∧ start_date ≤ Attendance.date a ≤ end_date)
                         (attendance s))))
           date_range
         <$> take 1000 (students_of s class_id)))
    ("attachment; filename=attendance_report_" +:+ class_id +:+ "_"
     +:+ isoformat start_date +:+ "_" +:+ isoformat end_date +:+ ".csv").

(** An authenticated actor is what [get_current_user] returns: the public
    fields of a stored user. *)
Definition authenticated (s : db) (actor : UserResponse.t) : Prop :=
  ∃ user, user ∈ users s ∧ actor = UserResponse_of_user user.

(** A user with this email is stored. *)
Definition email_taken (s : db) (email : string) : Prop :=
  ∃ u, u ∈ users s ∧ User.email u = email.

(** The user a registration builds, of which it stores [as_stored]. *)
Definition registered_user (bcrypt_hash : string → string → string)
    (e : env) (user_data : UserCreate.t) : User.t :=
  User_of_payload e user_data
    (bcrypt_hash (gensalt e) (UserCreate.password user_data)).

(** The outcome of a student update, and of a student deletion, that the
    ownership check lets through. *)
Definition student_updated (e : env) (student_id : string)
    (student_data : StudentCreate.t) (s : db) : result Student.t * db :=
  (Returned (Student_set_id student_id (Student_of_payload e student_data)),
   set_students (update_one (λ st, Student.id st = student_id)
                   (Student_set_id student_id (Student_of_payload e student_data))) s).

Definition student_deleted (student_id : string) (s : db) : result string * db :=
  (Returned "Student deleted successfully",
   set_students (delete_one (λ st, Student.id st = student_id)) s).

(** ** Proof plumbing *)

(** Unfolds the plumbing of [M]. *)
Ltac run :=
  unfold mbind, M_bind, mret, M_ret, gets, modify, raise, throw, lift,
    bson_encode_date;
  cbv beta iota zeta.

(** Case analysis on the lookups behind an owner [Ho : ... = Some o]. *)
Ltac owner_case Ho :=
  repeat match type of Ho with
  | context [student_by_id ?s ?i] =>
      destruct (student_by_id s i) eqn:?; cbn in Ho; [|discriminate]
  | context [class_by_id ?s ?i] =>
      destruct (class_by_id s i) eqn:?; cbn in Ho; [|discriminate]
  end; injection Ho as <-.

(** ** A small school, for the examples *)

Module Fixture.

Definition admin : UserResponse.t :=
  UserResponse.mk "A" "alice" "alice@school" "admin" 1000.
Definition teacher : UserResponse.t :=
  UserResponse.mk "T" "tom" "tom@school" "teacher" 2000.
Definition teacher2 : UserResponse.t :=
  UserResponse.mk "T2" "tina" "tina@school" "teacher" 3000.
Definition guest : UserResponse.t :=
  UserResponse.mk "G" "gus" "gus@school" "guest" 4000.

Definition maths : Class.t := Class.mk "C" "Maths" "Algebra" "T" 10000.
Definition physics : Class.t := Class.mk "C2" "Physics" "Optics" "T2" 11000.

Definition s1 : Student.t := Student.mk "S1" "Sam" "sam@school" "C" "1" 20000.
Definition s2 : Student.t := Student.mk "S2" "Sue" "sue@school" "C" "2" 21000.
(** A student whose class has been deleted. *)
Definition orphan : Student.t := Student.mk "S9" "Oz" "oz@school" "gone" "9" 22000.

(** The stored user behind an actor. *)
Definition stored (actor : UserResponse.t) : User.t :=
  User.mk (UserResponse.id actor) (UserResponse.username actor)
    (UserResponse.email actor) ("hash of " +:+ UserResponse.username actor)
    (UserResponse.role actor) (UserResponse.created_at actor).

(** The school behind the handle of [server.py]. *)
Definition school : db :=
  mkdb false [stored admin; stored teacher; stored teacher2; stored guest]
       [maths; physics] [s1; s2; orphan] [].

(** The same collections behind a handle whose codec options encode a
    [datetime.date]. *)
Definition with_date_codec (s : db) : db :=
  mkdb true (users s) (classes s) (students s) (attendance s).

(** The clock of the request reads 5.000250 s, then one microsecond more
    at each reading. *)
Definition e0 : env :=
  mkenv (λ k, "uuid-" +:+ pretty k) (λ k, 5000250 + Z.of_nat k) "salt".

(** 2024-01-10 *)
Definition jan10 : date := 738895.

Definition marks : list (gmap string json) :=
  [ {[ "student_id" := JString "S1"; "status" := JString "present" ]};
    {[ "student_id" := JString "S2"; "status" := JString "absent" ]} ].

(** [n] classes, all of teacher "T", and [n] students, all of class "C". *)
Definition many_classes (n : nat) : list Class.t :=
  (λ k, Class.mk ("c" +:+ pretty k) "Maths" "Algebra" "T" 10000) <$> seq 0 n.
Definition many_students (n : nat) : list Student.t :=
  (λ k, Student.mk ("s" +:+ pretty k) "Sam" "sam@school" "C" (pretty k) 20000)
  <$> seq 0 n.

Definition big_school : db :=
  mkdb false (users school) (maths :: many_classes 1000) (many_students 1001) [].

(** A payload that moves a student to the physics class of [Fixture]. *)
Definition move_to_physics : StudentCreate.t :=
  StudentCreate.mk "Sam" "sam@school" "C2" "1".

(** A payload that names a class nobody stored. *)
Definition move_to_nowhere : StudentCreate.t :=
  StudentCreate.mk "Sam" "sam@school" "no-such-class" "1".

(** Two registrations for the same address. *)
Definition bob : UserCreate.t := UserCreate.mk "bob" "bob@school" "secret" "teacher".

(** A registration whose password starts with a NUL character. *)
Definition nul_password : string := String Ascii.zero "secret".

End Fixture.

(** ** The routes outside the ownership check *)

Module UserLogin.
Record t : Type := mk { email : string; password : string }.
End UserLogin.

(** [decode_jwt_token], over [jwt_decode], the library's [jwt.decode] with
    the server's secret: [None] stands for the [PyJWTError] it raises on a
    token that does not verify, which the helper turns into a 401. *)
Definition decode_jwt_token (jwt_decode : string → option (gmap string json))
    (token : string) : result (gmap string json) :=
  match jwt_decode token with
  | Some payload => Returned payload
  | None => HTTPException 401 "Invalid token"
  end.

Section Login.
Variable bcrypt_verify : string → string → option bool.
Variable create_jwt_token : string → string.

Definition login_user (login_data : UserLogin.t) : M AuthReply.t :=
  user ← gets (λ s,
    find_one (λ u, User.email u = UserLogin.email login_data) (users s));
  match user with
  | None => raise 400 "Invalid email or password"
  | Some user =>
    verified ← lift (verify_password bcrypt_verify (UserLogin.password login_data)
                       (User.password_hash user));
    if negb verified
    then raise 400 "Invalid email or password"
    else
      let token := create_jwt_token (User.id user) in
      mret (AuthReply.mk "Login successful" token (UserResponse_of_user user))
  end.
End Login.

Definition get_users (current_user : UserResponse.t) : M (list UserResponse.t) :=
  if bool_decide (UserResponse.role current_user ≠ "admin")
  then raise 403 "Only admins can view users"
  else
    users ← gets (λ s, to_list 1000 (users s));
    mret (UserResponse_of_user <$> users).

(** ** More vocabulary *)

(** The identifiers of the stored classes and students are pairwise
    distinct. *)
Definition ids_distinct (s : db) : Prop :=
  NoDup (Class.id <$> classes s) ∧ NoDup (Student.id <$> students s).

(** The identifier the default factory hands to the document a request
    builds is not yet the id of a stored class or student. *)
Definition uuid_fresh (e : env) (s : db) : Prop :=
  (uuid4 e 0 ∉ (Class.id <$> classes s))
  ∧ (uuid4 e 0 ∉ (Student.id <$> students s)).

(** Stand-ins for the opaque primitives, for the examples: a hash that
    starts with "salt$" is read as the digest of what follows, any other
    string is no hash; a filter that is not a string selects nobody. *)
Module Demo.
Definition bcrypt_hash (salt password : string) : string :=
  salt +:+ "$" +:+ password.
Definition bcrypt_verify (plain_password hashed_password : string) : option bool :=
  if bool_decide (String.substring 0 5 hashed_password = "salt$")
  then Some (bool_decide (hashed_password = "salt$" +:+ plain_password))
  else None.
Definition create_jwt_token (user_id : string) : string := "jwt " +:+ user_id.
Definition jwt_decode (token : string) : option (gmap string json) :=
  if bool_decide (String.substring 0 4 token = "jwt ")
  then Some {[ "user_id" :=
                 JString (String.substring 4 (String.length token - 4) token) ]}
  else None.
Definition find_one_by_filter (v : json) (users : list User.t)
    : result (option User.t) := Returned None.
End Demo.

(** * Properties *)

(** ** The calendar *)

Example isoformat_2024_01_10 : isoformat 738895 = "2024-01-10".
Proof. reflexivity. Qed.
Example isoformat_leap_day : isoformat 738945 = "2024-02-29".
Proof. reflexivity. Qed.
Example isoformat_end_of_year : isoformat 738885 = "2023-12-31".
Proof. reflexivity. Qed.
Example isoformat_1900_03_01 : isoformat 693655 = "1900-03-01".
Proof. reflexivity. Qed.
Example isoformat_min : isoformat MINORDINAL = "0001-01-01".
Proof. reflexivity. Qed.
Example isoformat_max : isoformat MAXORDINAL = "9999-12-31".
Proof. reflexivity. Qed.

Example strftime_2024_01_10 : strftime_Y_m_d 738895 = "2024-01-10".
Proof. reflexivity. Qed.
Example strftime_before_year_1000 :
  isoformat 364877 = "0999-12-31" ∧ strftime_Y_m_d 364877 = "999-12-31".
Proof. split; reflexivity. Qed.

Example bson_datetime_drops_microseconds : bson_datetime 5000250 = 5000000.
Proof. reflexivity. Qed.

Lemma bson_datetime_idemp (t : datetime) : bson_datetime (bson_datetime t) = bson_datetime t.
Proof. unfold bson_datetime. rewrite Z.div_mul by lia. reflexivity. Qed.

Lemma denied_canMutate (u : UserResponse.t) (t : string) :
  bool_decide (UserResponse.role u ≠ "admin") && bool_decide (t ≠ UserResponse.id u)
  = negb (canMutate u t).
Proof.
  unfold canMutate. repeat case_bool_decide; simpl; congruence.
Qed.

Lemma canMutate_true (u : UserResponse.t) (o : string) :
  canMutate u o = true ↔ UserResponse.role u = "admin" ∨ UserResponse.id u = o.
Proof.
  unfold canMutate. rewrite orb_true_iff, !bool_decide_eq_true. reflexivity.
Qed.

Lemma canMutate_false (u : UserResponse.t) (o : string) :
  canMutate u o = false ↔ ¬ (UserResponse.role u = "admin" ∨ UserResponse.id u = o).
Proof.
  rewrite <- canMutate_true. destruct (canMutate u o); split; congruence.
Qed.

Lemma not_admin_and_not_owner_Some (u : UserResponse.t) (c : Class.t) (s : db) :
  not_admin_and_not_owner u (Some c) s
  = (Returned (negb (canMutate u (Class.teacher_id c))), s).
Proof.
  unfold not_admin_and_not_owner, canMutate, subscript_teacher_id. run.
  repeat case_bool_decide; simpl; congruence.
Qed.

Lemma not_admin_and_not_owner_None (u : UserResponse.t) (s : db) :
  not_admin_and_not_owner u None s =
  if bool_decide (UserResponse.role u = "admin") then (Returned false, s)
  else (Unhandled TypeError, s).
Proof.
  unfold not_admin_and_not_owner, subscript_teacher_id. run.
  repeat case_bool_decide; simpl; congruence.
Qed.

(** ** What each handler computes *)

Lemma create_class_eq e class_data u s :
  create_class e class_data u s =
  if canMutate u (ClassCreate.teacher_id class_data)
  then (Returned (Class_of_payload e class_data),
        set_classes (insert_one (Class_of_payload e class_data)) s)
  else (HTTPException 403 "Not authorized to create class for another teacher", s).
Proof.
  unfold create_class. rewrite denied_canMutate.
  destruct (canMutate _ _); reflexivity.
Qed.

Lemma update_class_eq e class_id class_data u s :
  update_class e class_id class_data u s =
  match class_by_id s class_id with
  | None => (HTTPException 404 "Class not found", s)
  | Some c =>
    if canMutate u (Class.teacher_id c)
    then (Returned (Class_set_id class_id (Class_of_payload e class_data)),
          set_classes (update_one (λ c, Class.id c = class_id)
                         (Class_set_id class_id (Class_of_payload e class_data))) s)
    else (HTTPException 403 "Not authorized to update this class", s)
  end.
Proof.
  unfold update_class, class_by_id. run.
  destruct (find_one _ _) as [c|]; [|reflexivity].
  rewrite denied_canMutate. destruct (canMutate _ _); reflexivity.
Qed.

Lemma delete_class_eq class_id u s :
  delete_class class_id u s =
  match class_by_id s class_id with
  | None => (HTTPException 404 "Class not found", s)
  | Some c =>
    if canMutate u (Class.teacher_id c)
    then (Returned "Class deleted successfully",
          set_classes (delete_one (λ c, Class.id c = class_id)) s)
    else (HTTPException 403 "Not authorized to delete this class", s)
  end.
Proof.
  unfold delete_class, class_by_id. run.
  destruct (find_one _ _) as [c|]; [|reflexivity].
  rewrite denied_canMutate. destruct (canMutate _ _); reflexivity.
Qed.

Lemma create_student_eq e student_data u s :
  create_student e student_data u s =
  match class_by_id s (StudentCreate.class_id student_data) with
  | None => (HTTPException 404 "Class not found", s)
  | Some c =>
    if canMutate u (Class.teacher_id c)
    then (Returned (Student_of_payload e student_data),
          set_students (insert_one (Student_of_payload e student_data)) s)
    else (HTTPException 403 "Not authorized to add student to this class", s)
  end.
Proof.
  unfold create_student, class_by_id. run.
  destruct (find_one _ _) as [c|]; [|reflexivity].
  rewrite denied_canMutate. destruct (canMutate _ _); reflexivity.
Qed.

Lemma update_student_eq e student_id student_data u s :
  update_student e student_id student_data u s =
  match student_by_id s student_id with
  | None => (HTTPException 404 "Student not found", s)
  | Some _ =>
    match class_by_id s (StudentCreate.class_id student_data) with
    | Some c =>
      if canMutate u (Class.teacher_id c)
      then student_updated e student_id student_data s
      else (HTTPException 403 "Not authorized to update this student", s)
    | None =>
      if bool_decide (UserResponse.role u = "admin")
      then student_updated e student_id student_data s
      else (Unhandled TypeError, s)
    end
  end.
Proof.
  unfold update_student, class_by_id, student_by_id, student_updated. run.
  destruct (find_one _ (students s)) as [st|]; [|reflexivity].
  destruct (find_one _ (classes s)) as [c|].
  - rewrite not_admin_and_not_owner_Some.
    destruct (canMutate _ _); reflexivity.
  - rewrite not_admin_and_not_owner_None.
    case_bool_decide; reflexivity.
Qed.

Lemma delete_student_eq student_id u s :
  delete_student student_id u s =
  match student_by_id s student_id with
  | None => (HTTPException 404 "Student not found", s)
  | Some st =>
    match class_by_id s (Student.class_id st) with
    | Some c =>
      if canMutate u (Class.teacher_id c)
      then student_deleted student_id s
      else (HTTPException 403 "Not authorized to delete this student", s)
    | None =>
      if bool_decide (UserResponse.role u = "admin")
      then student_deleted student_id s
      else (Unhandled TypeError, s)
    end
  end.
Proof.
  unfold delete_student, class_by_id, student_by_id, student_deleted. run.
  destruct (find_one _ (students s)) as [st|]; [|reflexivity].
  destruct (find_one _ (classes s)) as [c|].
  - rewrite not_admin_and_not_owner_Some.
    destruct (canMutate _ _); reflexivity.
  - rewrite not_admin_and_not_owner_None.
    case_bool_decide; reflexivity.
Qed.

(** One turn of the loop of [build_attendance_records]. *)
Lemma build_attendance_records_cons e class_id d k record records :
  build_attendance_records e class_id d k (record :: records) =
  match record !! "student_id" with
  | None => Unhandled (KeyError "student_id")
  | Some student_id =>
    match record !! "status" with
    | None => Unhandled (KeyError "status")
    | Some status =>
      match validate_str student_id with
      | Returned student_id =>
        match validate_str status with
        | Returned status =>
          match build_attendance_records e class_id d (S k) records with
          | Returned rest =>
              Returned (Attendance.mk (uuid4 e k) class_id student_id d status
                          (utcnow e k) :: rest)
          | HTTPException c msg => HTTPException c msg
          | Unhandled err => Unhandled err
          end
        | HTTPException c msg => HTTPException c msg
        | Unhandled err => Unhandled err
        end
      | HTTPException c msg => HTTPException c msg
      | Unhandled err => Unhandled err
      end
    end
  end.
Proof.
  cbn [build_attendance_records]. unfold getitem.
  destruct (record !! "student_id") as [student_id|]; [|reflexivity].
  destruct (record !! "status") as [status|]; [|reflexivity].
  unfold mbind, result_bind, mret, result_ret.
  destruct (validate_str student_id); [|reflexivity|reflexivity].
  destruct (validate_str status); [|reflexivity|reflexivity].
  destruct (build_attendance_records e class_id d (S k) records); reflexivity.
Qed.

Lemma validate_str_not_http (v : json) c msg : validate_str v ≠ HTTPException c msg.
Proof. destruct v as [s| |truth [s|]]; discriminate. Qed.

Lemma build_attendance_records_not_http e class_id d k records c msg :
  build_attendance_records e class_id d k records ≠ HTTPException c msg.
Proof.
  revert k. induction records as [|record records IH]; intros k; [discriminate|].
  rewrite build_attendance_records_cons.
  destruct (record !! "student_id") as [student_id|]; [|discriminate].
  destruct (record !! "status") as [status|]; [|discriminate].
  destruct (validate_str student_id) eqn:Hid;
    [|destruct (validate_str_not_http _ _ _ Hid)|discriminate].
  destruct (validate_str status) eqn:Hstatus;
    [|destruct (validate_str_not_http _ _ _ Hstatus)|discriminate].
  specialize (IH (S k)).
  destruct (build_attendance_records e class_id d (S k) records);
    [discriminate | exact IH | discriminate].
Qed.

Lemma encodes_date_set_attendance f s :
  encodes_date (set_attendance f s) = encodes_date s.
Proof. reflexivity. Qed.

Lemma mark_bulk_attendance_eq e attendance_data u s :
  mark_bulk_attendance e attendance_data u s =
  let class_id := AttendanceBulkCreate.class_id attendance_data in
  let d := AttendanceBulkCreate.date attendance_data in
  match class_by_id s class_id with
  | None => (HTTPException 404 "Class not found", s)
  | Some c =>
    if canMutate u (Class.teacher_id c) then
      if encodes_date s then
        let s1 := set_attendance (delete_many (in_partition class_id d)) s in
        match build_attendance_records e class_id d 0
                (AttendanceBulkCreate.attendance_records attendance_data) with
        | Returned rows =>
            (Returned (bulk_message (length rows)), set_attendance (insert_many rows) s1)
        | HTTPException c msg => (HTTPException c msg, s1)
        | Unhandled err => (Unhandled err, s1)
        end
      else (Unhandled InvalidDocument, s)
    else (HTTPException 403 "Not authorized to mark attendance for this class", s)
  end.
Proof.
  unfold mark_bulk_attendance, class_by_id. run.
  destruct (find_one _ _) as [c|]; [|reflexivity].
  rewrite denied_canMutate. destruct (canMutate _ _); [|reflexivity].
  cbn [negb]. cbv iota.
  destruct (encodes_date s) eqn:Hcodec; [|reflexivity].
  destruct (build_attendance_records _ _ _ _ _) as [[|a rows]| |]; try reflexivity.
  - unfold set_attendance, insert_many. cbn [attendance users classes students fmap list_fmap].
    rewrite app_nil_r. reflexivity.
  - rewrite encodes_date_set_attendance, Hcodec. reflexivity.
Qed.

Lemma get_attendance_eq class_id d u s :
  get_attendance class_id d u s =
  match class_by_id s class_id with
  | None => (HTTPException 404 "Class not found", s)
  | Some c =>
    if canMutate u (Class.teacher_id c) then
      if encodes_date s then
        (Returned (attendance_row (status_by_student (take 1000 (partition s class_id d)))
                   <$> take 1000 (students_of s class_id)), s)
      else (Unhandled InvalidDocument, s)
    else (HTTPException 403 "Not authorized to view attendance for this class", s)
  end.
Proof.
  unfold get_attendance, class_by_id. run.
  destruct (find_one _ _) as [c|]; [|reflexivity].
  rewrite denied_canMutate. destruct (canMutate _ _); [|reflexivity].
  cbn [negb]. cbv iota. destruct (encodes_date s); reflexivity.
Qed.

(** ** The loop over the days of a report *)

Lemma date_range_loop_step (current_date end_date : date) (date_range : list string) :
  date_range_loop current_date end_date date_range =
  if decide (current_date ≤ end_date) then
    match date_add_days current_date 1 with
    | Returned next =>
        date_range_loop next end_date (date_range ++ [strftime_Y_m_d current_date])
    | HTTPException c msg => HTTPException c msg
    | Unhandled err => Unhandled err
    end
  else Returned date_range.
Proof.
  simp date_range_loop.
  destruct (decide (current_date ≤ end_date)); simpl; [|reflexivity].
  destruct (date_add_days current_date 1); reflexivity.
Qed.

Lemma date_add_days_1 (d : date) :
  0 ≤ d < MAXORDINAL → date_add_days d 1 = Returned (d + 1).
Proof.
  intros Hd. unfold date_add_days. cbv zeta.
  destruct (decide (0 < d + 1 ≤ MAXORDINAL)); [reflexivity | lia].
Qed.

Lemma date_add_days_max : date_add_days MAXORDINAL 1 = Unhandled OverflowError.
Proof. reflexivity. Qed.

Lemma days_between_cons (a b : date) :
  a ≤ b → days_between a b = a :: days_between (a + 1) b.
Proof.
  intros Hab. unfold days_between. rewrite seqZ_cons by lia.
  f_equal. f_equal; lia.
Qed.

Lemma days_between_nil (a b : date) : b < a → days_between a b = [].
Proof. intros Hab. unfold days_between. apply seqZ_nil. lia. Qed.

Lemma days_between_length (a b : date) :
  length (days_between a b) = Z.to_nat (b - a + 1).
Proof. unfold days_between. apply length_seqZ. Qed.

(** Before the last day of the calendar the loop ends with one column per
    day of the range, in order. *)
Lemma date_range_loop_returns (start_date end_date : date) (date_range : list string) :
  0 ≤ start_date → end_date < MAXORDINAL →
  date_range_loop start_date end_date date_range
  = Returned (date_range ++ (strftime_Y_m_d <$> days_between start_date end_date)).
Proof.
  intros Hstart Hend.
  remember (Z.to_nat (end_date - start_date + 1)) as n eqn:Hn.
  revert start_date date_range Hstart Hn.
  induction n as [|n IH]; intros cur acc Hcur Hn; rewrite date_range_loop_step.
  - destruct (decide (cur ≤ end_date)); [lia|].
    rewrite days_between_nil by lia. simpl. rewrite app_nil_r. reflexivity.
  - destruct (decide (cur ≤ end_date)); [|lia].
    rewrite date_add_days_1 by lia.
    rewrite IH by lia. rewrite (days_between_cons cur) by lia.
    rewrite fmap_cons, <- app_assoc. reflexivity.
Qed.

(** When the range reaches the last day of the calendar, stepping past it
    raises [OverflowError]. *)
Lemma date_range_loop_overflows (start_date end_date : date) (date_range : list string) :
  0 ≤ start_date ≤ MAXORDINAL → MAXORDINAL ≤ end_date →
  date_range_loop start_date end_date date_range = Unhandled OverflowError.
Proof.
  intros Hstart Hend.
  remember (Z.to_nat (MAXORDINAL - start_date)) as n eqn:Hn.
  revert start_date date_range Hstart Hn.
  induction n as [|n IH]; intros cur acc Hcur Hn; rewrite date_range_loop_step.
  - assert (cur = MAXORDINAL) as -> by lia.
    destruct (decide (MAXORDINAL ≤ end_date)); [|lia].
    rewrite date_add_days_max. reflexivity.
  - destruct (decide (cur ≤ end_date)); [|lia].
    rewrite date_add_days_1 by lia. apply IH; lia.
Qed.

Lemma date_range_loop_not_http (start_date end_date : date) (date_range : list string)
    (c : nat) (msg : string) :
  date_range_loop start_date end_date date_range ≠ HTTPException c msg.
Proof.
  remember (Z.to_nat (end_date - start_date + 1)) as n eqn:Hn.
  revert start_date date_range Hn.
  induction n as [|n IH]; intros cur acc Hn; rewrite date_range_loop_step.
  - destruct (decide (cur ≤ end_date)); [lia | discriminate].
  - destruct (decide (cur ≤ end_date)); [|discriminate].
    unfold date_add_days. cbv zeta.
    destruct (decide (0 < cur + 1 ≤ MAXORDINAL)); [|discriminate].
    apply IH. lia.
Qed.

Lemma download_attendance_csv_eq class_id start_date end_date u s :
  download_attendance_csv class_id start_date end_date u s =
  match class_by_id s class_id with
  | None => (HTTPException 404 "Class not found", s)
  | Some c =>
    if canMutate u (Class.teacher_id c) then
      if encodes_date s then
        match date_range_loop start_date end_date [] with
        | Returned date_range =>
            (Returned (csv_report s class_id start_date end_date date_range), s)
        | HTTPException c msg => (HTTPException c msg, s)
        | Unhandled err => (Unhandled err, s)
        end
      else (Unhandled InvalidDocument, s)
    else (HTTPException 403 "Not authorized to generate report for this class", s)
  end.
Proof.
  unfold download_attendance_csv, class_by_id. run.
  destruct (find_one _ _) as [c|]; [|reflexivity].
  rewrite denied_canMutate. destruct (canMutate _ _); [|reflexivity].
  cbn [negb]. cbv iota. destruct (encodes_date s); [|reflexivity].
  destruct (date_range_loop start_date end_date []); reflexivity.
Qed.

(** ** Collections *)

Section CollectionFacts.
Context {A : Type} `{!Bson A} (P : A → Prop) `{!∀ x, Decision (P x)}.

Lemma find_one_cons (x : A) (l : list A) :
  find_one P (x :: l) = if decide (P x) then Some x else find_one P l.
Proof.
  unfold find_one. simpl. destruct (decide (P x)); [reflexivity|].
  destruct (list_find P l) as [[i y]|]; reflexivity.
Qed.

Lemma find_one_Some (l : list A) (x : A) : find_one P l = Some x → x ∈ l ∧ P x.
Proof.
  induction l as [|y l IH]; [discriminate|].
  rewrite find_one_cons. destruct (decide (P y)) as [Hy|Hy].
  - intros [= ->]. split; [left | exact Hy].
  - intros Hx. destruct (IH Hx). split; [right|]; assumption.
Qed.

Lemma find_one_None (l : list A) : find_one P l = None ↔ ∀ x, x ∈ l → ¬ P x.
Proof.
  induction l as [|y l IH].
  - split; [|reflexivity]. intros _ x Hx. inversion Hx.
  - rewrite find_one_cons. destruct (decide (P y)) as [Hy|Hy].
    + split; [discriminate|]. intros Hall. destruct (Hall y); [left | exact Hy].
    + rewrite IH. split.
      * intros Hall x Hx. inversion Hx; subst; auto.
      * intros Hall x Hx. apply Hall. right. exact Hx.
Qed.

Lemma find_one_is_Some (l : list A) : is_Some (find_one P l) ↔ ∃ x, x ∈ l ∧ P x.
Proof.
  split.
  - intros [x Hx]. exists x. apply find_one_Some. exact Hx.
  - intros (x & Hx & HP). destruct (find_one P l) eqn:E; [eauto|].
    exfalso. eapply find_one_None; eauto.
Qed.

(** What [find_one] reads back after [update_one] is the document that was
    written, as the store keeps it. *)
Lemma find_one_update_one (doc : A) (l : list A) :
  P (as_stored doc) → is_Some (find_one P l) →
  find_one P (update_one P doc l) = Some (as_stored doc).
Proof.
  intros Hdoc. induction l as [|y l IH]; intros [x Hx]; [discriminate|].
  rewrite find_one_cons in Hx. simpl.
  destruct (decide (P y)) as [Hy|Hy].
  - rewrite find_one_cons. destruct (decide (P (as_stored doc))); [reflexivity | contradiction].
  - rewrite find_one_cons. destruct (decide (P y)); [contradiction|].
    apply IH. eauto.
Qed.

Lemma update_one_length (doc : A) (l : list A) :
  length (update_one P doc l) = length l.
Proof.
  induction l as [|y l IH]; [reflexivity|]. simpl.
  destruct (decide (P y)); simpl; congruence.
Qed.

(** [update_one] leaves alone every document the query does not match. *)
Lemma update_one_other (doc : A) (l : list A) (x : A) :
  ¬ P x → x ∈ l → x ∈ update_one P doc l.
Proof.
  intros Hx. induction l as [|y l IH]; [trivial|]. simpl.
  intros Hin. destruct (decide (P y)) as [Hy|Hy].
  - inversion Hin; subst; [contradiction | right; assumption].
  - inversion Hin; subst; [left | right; auto].
Qed.

Lemma filter_delete_many (l : list A) : filter P (delete_many P l) = [].
Proof.
  unfold delete_many. induction l as [|y l IH]; [reflexivity|].
  rewrite filter_cons. destruct (decide (¬ P y)) as [Hy|Hy]; [|exact IH].
  rewrite filter_cons. destruct (decide (P y)); [contradiction | exact IH].
Qed.

Lemma filter_all (l : list A) : Forall P l → filter P l = l.
Proof.
  induction 1 as [|y l Hy _ IH]; [reflexivity|].
  rewrite filter_cons. destruct (decide (P y)); [|contradiction]. congruence.
Qed.
End CollectionFacts.

(** ** The ownership rule *)

Lemma status_of_wrap {A B} (f : A → B) (m : M A) (s : db) :
  status_of ((x ← m; mret (f x)) s).1 = status_of (m s).1
  ∧ ((x ← m; mret (f x)) s).2 = (m s).2.
Proof. run. destruct (m s) as [[a| |] s']; split; reflexivity. Qed.

Lemma api_router_status e u req s :
  status_of (api_router e u req s).1 =
  match req with
  | POST_classes class_data => status_of (create_class e class_data u s).1
  | PUT_classes class_id class_data => status_of (update_class e class_id class_data u s).1
  | DELETE_classes class_id => status_of (delete_class class_id u s).1
  | POST_students student_data => status_of (create_student e student_data u s).1
  | PUT_students student_id student_data =>
      status_of (update_student e student_id student_data u s).1
  | DELETE_students student_id => status_of (delete_student student_id u s).1
  | POST_attendance_bulk attendance_data =>
      status_of (mark_bulk_attendance e attendance_data u s).1
  | GET_attendance class_id d => status_of (get_attendance class_id d u s).1
  | GET_attendance_report_csv class_id start_date end_date =>
      status_of (download_attendance_csv class_id start_date end_date u s).1
  end.
Proof. destruct req; apply status_of_wrap. Qed.

Lemma api_router_store e u req s :
  (api_router e u req s).2 =
  match req with
  | POST_classes class_data => (create_class e class_data u s).2
  | PUT_classes class_id class_data => (update_class e class_id class_data u s).2
  | DELETE_classes class_id => (delete_class class_id u s).2
  | POST_students student_data => (create_student e student_data u s).2
  | PUT_students student_id student_data =>
      (update_student e student_id student_data u s).2
  | DELETE_students student_id => (delete_student student_id u s).2
  | POST_attendance_bulk attendance_data =>
      (mark_bulk_attendance e attendance_data u s).2
  | GET_attendance class_id d => (get_attendance class_id d u s).2
  | GET_attendance_report_csv class_id start_date end_date =>
      (download_attendance_csv class_id start_date end_date u s).2
  end.
Proof. destruct req; apply status_of_wrap. Qed.

Lemma policy_owner_status e s req u o :
  policy_owner s req = Some o →
  (canMutate u o = false →
     status_of (api_router e u req s).1 = 403%nat ∧ (api_router e u req s).2 = s)
  ∧ (canMutate u o = true → status_of (api_router e u req s).1 ≠ 403%nat).
Proof.
  intros Ho. rewrite api_router_status, api_router_store.
  destruct req; simpl in Ho; unfold student_owner, class_owner in Ho.
  - injection Ho as <-. rewrite create_class_eq.
    split; intros ->; [split; reflexivity | discriminate].
  - rewrite update_class_eq. owner_case Ho.
    split; intros ->; [split; reflexivity | discriminate].
  - rewrite delete_class_eq. owner_case Ho.
    split; intros ->; [split; reflexivity | discriminate].
  - rewrite create_student_eq. owner_case Ho.
    split; intros ->; [split; reflexivity | discriminate].
  - rewrite update_student_eq. owner_case Ho.
    split; intros ->; [split; reflexivity | discriminate].
  - rewrite delete_student_eq. owner_case Ho.
    split; intros ->; [split; reflexivity | discriminate].
  - rewrite mark_bulk_attendance_eq. cbv zeta. owner_case Ho.
    split; intros ->; [split; reflexivity |].
    destruct (encodes_date s); [|discriminate].
    destruct (build_attendance_records _ _ _ _ _) eqn:E; try discriminate.
    exfalso. eapply build_attendance_records_not_http, E.
  - rewrite get_attendance_eq. owner_case Ho.
    split; intros ->; [split; reflexivity |].
    destruct (encodes_date s); discriminate.
  - rewrite download_attendance_csv_eq. owner_case Ho.
    split; intros ->; [split; reflexivity |].
    destruct (encodes_date s); [|discriminate].
    destruct (date_range_loop _ _ _) eqn:E; try discriminate.
    exfalso. eapply date_range_loop_not_http, E.
Qed.

(** C1, as amended.  On every guarded route (class create, update, delete;
    student create, update, delete; attendance bulk-write, read and CSV
    report), when the handler finds the class whose teacher it checks, with
    teacher id [o], the request is answered 403 Forbidden exactly when the
    actor is neither an admin nor the user [o], and a refused request leaves
    the store as it was.  The teacher checked is the one [policy_owner]
    names: for a student update it is the teacher of the class named by the
    payload's [class_id], not of the class the stored student is in. *)
Theorem policy_rule_on_checked_owner e s req u o :
  policy_owner s req = Some o →
  (status_of (api_router e u req s).1 = 403%nat
   ↔ ¬ (UserResponse.role u = "admin" ∨ UserResponse.id u = o))
  ∧ (¬ (UserResponse.role u = "admin" ∨ UserResponse.id u = o) →
     (api_router e u req s).2 = s).
Proof.
  intros Ho. destruct (policy_owner_status e s req u o Ho) as [Hdeny Hallow].
  rewrite <- canMutate_false. destruct (canMutate u o) eqn:Hc.
  - split; [|discriminate]. split; [|discriminate].
    intros H403. destruct (Hallow eq_refl H403).
  - destruct (Hdeny eq_refl) as [H403 Hs]. split; [split|]; auto.
Qed.

Lemma policy_rule_on_checked_owner_witness :
  policy_owner Fixture.school (DELETE_classes "C") = Some "T"
  ∧ (status_of (api_router Fixture.e0 Fixture.teacher2 (DELETE_classes "C")
                  Fixture.school).1 = 403%nat
     ↔ ¬ (UserResponse.role Fixture.teacher2 = "admin"
          ∨ UserResponse.id Fixture.teacher2 = "T")).
Proof.
  split; [reflexivity|].
  destruct (policy_rule_on_checked_owner Fixture.e0 Fixture.school
              (DELETE_classes "C") Fixture.teacher2 "T") as [Hrule _];
    [reflexivity | exact Hrule].
Defined.

(** C1 fails as stated when the owner of a student is the teacher of the
    student's class: tom ("T") teaches the class of student "S1", so he is
    the owning teacher, yet his update of "S1" is refused with 403 because
    the payload names the physics class, which tina teaches. *)
Lemma owner_refused_on_student_update :
  authenticated Fixture.school Fixture.teacher
  ∧ resource_owner Fixture.school (PUT_students "S1" Fixture.move_to_physics) = Some "T"
  ∧ UserResponse.id Fixture.teacher = "T"
  ∧ (api_router Fixture.e0 Fixture.teacher (PUT_students "S1" Fixture.move_to_physics)
       Fixture.school).1
    = HTTPException 403 "Not authorized to update this student".
Proof.
  split; [exists (Fixture.stored Fixture.teacher); split; repeat constructor|].
  repeat split.
Qed.

(** ** Existence before permission *)

Lemma target_missing_status e s req u :
  target_missing s req = true →
  status_of (api_router e u req s).1 = 404%nat ∧ (api_router e u req s).2 = s.
Proof.
  intros Hmiss. rewrite api_router_status, api_router_store.
  destruct req; simpl in Hmiss; try discriminate;
    apply bool_decide_eq_true in Hmiss.
  - rewrite update_class_eq, Hmiss. split; reflexivity.
  - rewrite delete_class_eq, Hmiss. split; reflexivity.
  - rewrite create_student_eq, Hmiss. split; reflexivity.
  - rewrite update_student_eq, Hmiss. split; reflexivity.
  - rewrite delete_student_eq, Hmiss. split; reflexivity.
  - rewrite mark_bulk_attendance_eq. cbv zeta. rewrite Hmiss. split; reflexivity.
  - rewrite get_attendance_eq, Hmiss. split; reflexivity.
  - rewrite download_attendance_csv_eq, Hmiss. split; reflexivity.
Qed.

(** C4, as amended.  On every guarded route that names a stored target (the
    class of a class update or deletion, of a student creation, of an
    attendance bulk-write, read or report; the student of a student update
    or deletion) the existence check comes first: when the target is not
    stored, the answer is 404 NotFound for every actor, admin or not.  When
    the handler finds the class whose teacher it checks (the target class
    itself, the stored student's class for a student deletion, the class
    named by the payload's [class_id] for a student update) and the actor is
    a non-admin other than that teacher, the answer is 403 Forbidden.
    Neither answer changes the store. *)
Theorem existence_check_precedes_permission e s req u :
  (target_missing s req = true →
   status_of (api_router e u req s).1 = 404%nat ∧ (api_router e u req s).2 = s)
  ∧ (∀ o, policy_owner s req = Some o →
          UserResponse.role u ≠ "admin" → UserResponse.id u ≠ o →
          target_missing s req = false
          ∧ status_of (api_router e u req s).1 = 403%nat
          ∧ (api_router e u req s).2 = s).
Proof.
  split; [apply target_missing_status|].
  intros o Ho Hrole Hid. split.
  - destruct (target_missing s req) eqn:Hex; [|reflexivity].
    exfalso. destruct req; simpl in Hex; try discriminate;
      apply bool_decide_eq_true in Hex;
      simpl in Ho; unfold student_owner, class_owner in Ho;
      rewrite Hex in Ho; discriminate.
  - apply (policy_owner_status e s req u o Ho).
    apply canMutate_false. intros [?|?]; contradiction.
Qed.

Lemma existence_check_precedes_permission_witness :
  (target_missing Fixture.school (DELETE_classes "no-such-class") = true
   ∧ status_of (api_router Fixture.e0 Fixture.teacher2 (DELETE_classes "no-such-class")
                  Fixture.school).1 = 404%nat)
  ∧ (policy_owner Fixture.school (DELETE_classes "C") = Some "T"
     ∧ status_of (api_router Fixture.e0 Fixture.teacher2 (DELETE_classes "C")
                    Fixture.school).1 = 403%nat).
Proof.
  split.
  - split; [reflexivity|].
    destruct (existence_check_precedes_permission Fixture.e0 Fixture.school
                (DELETE_classes "no-such-class") Fixture.teacher2) as [Hmissing _].
    apply Hmissing. reflexivity.
  - split; [reflexivity|].
    destruct (existence_check_precedes_permission Fixture.e0 Fixture.school
                (DELETE_classes "C") Fixture.teacher2) as [_ Hdenied].
    apply (Hdenied "T"); [reflexivity | discriminate | discriminate].
Defined.

(** C4 fails as stated: student "S1" is stored, in tom's class; tina
    ("T2") is no admin and does not own "S1"; her update of "S1" is not
    refused but carried out, because its payload names her own class. *)
Lemma non_owner_updates_student :
  authenticated Fixture.school Fixture.teacher2
  ∧ target_missing Fixture.school (PUT_students "S1" Fixture.move_to_physics) = false
  ∧ resource_owner Fixture.school (PUT_students "S1" Fixture.move_to_physics) = Some "T"
  ∧ UserResponse.role Fixture.teacher2 ≠ "admin"
  ∧ UserResponse.id Fixture.teacher2 ≠ "T"
  ∧ status_of (api_router Fixture.e0 Fixture.teacher2
                 (PUT_students "S1" Fixture.move_to_physics) Fixture.school).1 = 200%nat.
Proof.
  split; [exists (Fixture.stored Fixture.teacher2); split; repeat constructor|].
  repeat split; discriminate.
Qed.

(** ** Updates *)

Lemma student_by_id_updated e student_id student_data s :
  is_Some (student_by_id s student_id) →
  student_by_id (student_updated e student_id student_data s).2 student_id
  = Some (as_stored (Student_set_id student_id (Student_of_payload e student_data))).
Proof.
  intros Hst. unfold student_by_id, student_updated, set_students.
  cbn [snd students]. apply find_one_update_one; [reflexivity | exact Hst].
Qed.

(** C5.  Once the student of an update is found, a non-admin actor is
    judged against the teacher of the class the payload's new [class_id]
    names, whatever class the stored student is in: another teacher is
    refused with 403, and that teacher is let through, after which the
    student found under the id is the returned one as the store keeps it,
    and belongs to the class of the payload. *)
Theorem update_student_checks_destination_class
    e s student_id student_data u existing_student class_doc :
  student_by_id s student_id = Some existing_student →
  class_by_id s (StudentCreate.class_id student_data) = Some class_doc →
  UserResponse.role u ≠ "admin" →
  (Class.teacher_id class_doc ≠ UserResponse.id u →
   update_student e student_id student_data u s
   = (HTTPException 403 "Not authorized to update this student", s))
  ∧ (Class.teacher_id class_doc = UserResponse.id u →
     ∃ updated s',
       update_student e student_id student_data u s = (Returned updated, s')
       ∧ student_by_id s' student_id = Some (as_stored updated)
       ∧ Student.class_id updated = StudentCreate.class_id student_data
       ∧ Student.class_id (as_stored updated) = StudentCreate.class_id student_data).
Proof.
  intros Hst Hclass Hrole. rewrite update_student_eq, Hst, Hclass. split.
  - intros Hother.
    assert (canMutate u (Class.teacher_id class_doc) = false) as ->; [|reflexivity].
    apply canMutate_false. intros [?|?]; [contradiction | congruence].
  - intros Hown.
    assert (canMutate u (Class.teacher_id class_doc) = true) as ->.
    { apply canMutate_true. right. congruence. }
    eexists _, _. split; [reflexivity|]. split; [|split; reflexivity].
    apply student_by_id_updated. rewrite Hst. eauto.
Qed.

Lemma update_student_checks_destination_class_witness :
  class_owner Fixture.school (Student.class_id Fixture.s1) = Some "T"
  ∧ ∃ updated s',
      update_student Fixture.e0 "S1" Fixture.move_to_physics Fixture.teacher2 Fixture.school
      = (Returned updated, s')
      ∧ student_by_id s' "S1" = Some (as_stored updated)
      ∧ Student.class_id updated = "C2"
      ∧ Student.class_id (as_stored updated) = "C2".
Proof.
  split; [reflexivity|].
  destruct (update_student_checks_destination_class Fixture.e0 Fixture.school "S1"
              Fixture.move_to_physics Fixture.teacher2 Fixture.s1 Fixture.physics)
    as [_ Hmove]; [reflexivity | reflexivity | discriminate |].
  apply Hmove. reflexivity.
Defined.

(** C9.  In a student update the class named by the payload's [class_id]
    is looked up without an existence guard: when a non-admin updates a
    stored student and no class has that id, the permission test
    subscripts [None]; the handler answers neither 404 nor 403 but dies on
    the [TypeError], and the store is left as it was. *)
Theorem update_student_missing_class_unguarded
    e s student_id student_data u existing_student :
  student_by_id s student_id = Some existing_student →
  class_by_id s (StudentCreate.class_id student_data) = None →
  UserResponse.role u ≠ "admin" →
  update_student e student_id student_data u s = (Unhandled TypeError, s).
Proof.
  intros Hst Hclass Hrole. rewrite update_student_eq, Hst, Hclass.
  rewrite bool_decide_eq_false_2 by exact Hrole. reflexivity.
Qed.

Lemma update_student_missing_class_unguarded_witness :
  update_student Fixture.e0 "S1" Fixture.move_to_nowhere Fixture.teacher Fixture.school
  = (Unhandled TypeError, Fixture.school).
Proof.
  apply (update_student_missing_class_unguarded Fixture.e0 Fixture.school "S1"
           Fixture.move_to_nowhere Fixture.teacher Fixture.s1);
    [reflexivity | reflexivity | discriminate].
Defined.

Lemma class_by_id_updated e class_id class_data s :
  is_Some (class_by_id s class_id) →
  class_by_id
    (set_classes (update_one (λ c, Class.id c = class_id)
                    (Class_set_id class_id (Class_of_payload e class_data))) s)
    class_id
  = Some (as_stored (Class_set_id class_id (Class_of_payload e class_data))).
Proof.
  intros Hc. unfold class_by_id, set_classes. cbn [classes].
  apply find_one_update_one; [reflexivity | exact Hc].
Qed.

(** The updates that succeed: the class or the student is stored and the
    check lets the actor through. *)
Lemma update_class_returns e class_id class_data u s :
  (∃ c, class_by_id s class_id = Some c
        ∧ (UserResponse.role u = "admin" ∨ UserResponse.id u = Class.teacher_id c))
  ↔ update_class e class_id class_data u s
    = (Returned (Class_set_id class_id (Class_of_payload e class_data)),
       set_classes (update_one (λ c, Class.id c = class_id)
                      (Class_set_id class_id (Class_of_payload e class_data))) s).
Proof.
  rewrite update_class_eq. split.
  - intros (c & -> & Hcan). apply canMutate_true in Hcan. rewrite Hcan. reflexivity.
  - destruct (class_by_id s class_id) as [c|]; [|discriminate].
    destruct (canMutate u (Class.teacher_id c)) eqn:Hcan; [|discriminate].
    intros _. exists c. split; [reflexivity|]. apply canMutate_true, Hcan.
Qed.

Lemma update_student_returns e student_id student_data u s :
  (is_Some (student_by_id s student_id)
   ∧ (UserResponse.role u = "admin"
      ∨ ∃ c, class_by_id s (StudentCreate.class_id student_data) = Some c
             ∧ UserResponse.id u = Class.teacher_id c))
  ↔ update_student e student_id student_data u s
    = student_updated e student_id student_data s.
Proof.
  rewrite update_student_eq. split.
  - intros [[st ->] Hcan].
    destruct (class_by_id s (StudentCreate.class_id student_data)) as [c|] eqn:Hc.
    + assert (canMutate u (Class.teacher_id c) = true) as ->; [|reflexivity].
      apply canMutate_true. destruct Hcan as [Hadmin|(c' & [= <-] & Hown)]; auto.
    + destruct Hcan as [Hadmin|(c' & [=] & _)].
      rewrite bool_decide_eq_true_2 by exact Hadmin. reflexivity.
  - unfold student_updated.
    destruct (student_by_id s student_id) as [st|]; [|discriminate].
    intros Hrun. split; [eauto|].
    destruct (class_by_id s (StudentCreate.class_id student_data)) as [c|].
    + destruct (canMutate u (Class.teacher_id c)) eqn:Hcan; [|discriminate].
      apply canMutate_true in Hcan as [Hadmin|Hown]; [left; exact Hadmin|].
      right. exists c. split; [reflexivity | exact Hown].
    + case_bool_decide as Hadmin; [left; exact Hadmin | discriminate].
Qed.

(** C10.  A class update succeeds when the class is stored and the actor
    is an admin or its teacher; a student update succeeds when the student
    is stored and the actor is an admin or the teacher of the class the
    payload names.  Each then returns a document rebuilt from the payload:
    its [id] is the path parameter, its other fields are the payload's, and
    its [created_at] is the time of the update.  That document, at the
    precision of the store, replaces the one found by id, whose own
    [created_at] is lost; no other document and no other collection
    changes.  And an update that returns at all has returned and stored
    just that. *)
Theorem update_rebuilds_document e u s :
  (∀ class_id class_data existing,
     class_by_id s class_id = Some existing →
     (UserResponse.role u = "admin"
      ∨ UserResponse.id u = Class.teacher_id existing) →
     ∃ s',
       update_class e class_id class_data u s
       = (Returned (Class.mk class_id (ClassCreate.name class_data)
                      (ClassCreate.subject class_data)
                      (ClassCreate.teacher_id class_data) (utcnow e 0)), s')
       ∧ class_by_id s' class_id
         = Some (Class.mk class_id (ClassCreate.name class_data)
                   (ClassCreate.subject class_data)
                   (ClassCreate.teacher_id class_data) (bson_datetime (utcnow e 0)))
       ∧ classes s'
         = update_one (λ c, Class.id c = class_id)
             (Class.mk class_id (ClassCreate.name class_data)
                (ClassCreate.subject class_data)
                (ClassCreate.teacher_id class_data) (utcnow e 0)) (classes s)
       ∧ length (classes s') = length (classes s)
       ∧ (∀ c, c ∈ classes s → Class.id c ≠ class_id → c ∈ classes s')
       ∧ users s' = users s ∧ students s' = students s
       ∧ attendance s' = attendance s)
  ∧ (∀ student_id student_data existing,
       student_by_id s student_id = Some existing →
       (UserResponse.role u = "admin"
        ∨ ∃ c, class_by_id s (StudentCreate.class_id student_data) = Some c
               ∧ UserResponse.id u = Class.teacher_id c) →
       ∃ s',
         update_student e student_id student_data u s
         = (Returned (Student.mk student_id (StudentCreate.name student_data)
                        (StudentCreate.email student_data)
                        (StudentCreate.class_id student_data)
                        (StudentCreate.roll_number student_data) (utcnow e 0)), s')
         ∧ student_by_id s' student_id
           = Some (Student.mk student_id (StudentCreate.name student_data)
                     (StudentCreate.email student_data)
                     (StudentCreate.class_id student_data)
                     (StudentCreate.roll_number student_data)
                     (bson_datetime (utcnow e 0)))
         ∧ students s'
           = update_one (λ st, Student.id st = student_id)
               (Student.mk student_id (StudentCreate.name student_data)
                  (StudentCreate.email student_data)
                  (StudentCreate.class_id student_data)
                  (StudentCreate.roll_number student_data) (utcnow e 0)) (students s)
         ∧ length (students s') = length (students s)
         ∧ (∀ st, st ∈ students s → Student.id st ≠ student_id → st ∈ students s')
         ∧ users s' = users s ∧ classes s' = classes s
         ∧ attendance s' = attendance s)
  ∧ (∀ class_id class_data updated s',
       update_class e class_id class_data u s = (Returned updated, s') →
       updated = Class.mk class_id (ClassCreate.name class_data)
                   (ClassCreate.subject class_data)
                   (ClassCreate.teacher_id class_data) (utcnow e 0)
       ∧ class_by_id s' class_id = Some (as_stored updated))
  ∧ (∀ student_id student_data updated s',
       update_student e student_id student_data u s = (Returned updated, s') →
       updated = Student.mk student_id (StudentCreate.name student_data)
                   (StudentCreate.email student_data)
                   (StudentCreate.class_id student_data)
                   (StudentCreate.roll_number student_data) (utcnow e 0)
       ∧ student_by_id s' student_id = Some (as_stored updated)).
Proof.
  split; [|split; [|split]].
  - intros class_id class_data existing Hclass Hcan.
    assert (update_class e class_id class_data u s
            = (Returned (Class_set_id class_id (Class_of_payload e class_data)),
               set_classes (update_one (λ c, Class.id c = class_id)
                              (Class_set_id class_id (Class_of_payload e class_data))) s))
      as Hrun by (apply update_class_returns; eauto).
    eexists. split; [exact Hrun|].
    split; [apply class_by_id_updated; rewrite Hclass; eauto|].
    split; [reflexivity|].
    split; [apply update_one_length|].
    split; [|repeat split].
    intros c Hc Hother. apply update_one_other; assumption.
  - intros student_id student_data existing Hst Hcan.
    assert (update_student e student_id student_data u s
            = student_updated e student_id student_data s) as Hrun.
    { apply update_student_returns. split; [rewrite Hst; eauto | exact Hcan]. }
    eexists. split; [exact Hrun|].
    split; [apply student_by_id_updated; rewrite Hst; eauto|].
    split; [reflexivity|].
    split; [apply update_one_length|].
    split; [|repeat split].
    intros st Hin Hother. apply update_one_other; assumption.
  - intros class_id class_data updated s'. rewrite update_class_eq.
    destruct (class_by_id s class_id) as [c|] eqn:Hc; [|discriminate].
    destruct (canMutate u (Class.teacher_id c)); [|discriminate].
    intros [= <- <-]. split; [reflexivity|].
    apply class_by_id_updated. rewrite Hc. eauto.
  - intros student_id student_data updated s'. rewrite update_student_eq.
    destruct (student_by_id s student_id) as [st|] eqn:Hst; [|discriminate].
    assert (student_updated e student_id student_data s = (Returned updated, s') →
            updated = Student_set_id student_id (Student_of_payload e student_data)
            ∧ s' = (student_updated e student_id student_data s).2) as Hdone.
    { unfold student_updated. intros [= <- <-]. split; reflexivity. }
    intros Hrun.
    assert (student_updated e student_id student_data s = (Returned updated, s'))
      as Hupd.
    { destruct (class_by_id s (StudentCreate.class_id student_data)) as [c|].
      - destruct (canMutate u (Class.teacher_id c)); [exact Hrun | discriminate].
      - destruct (bool_decide (UserResponse.role u = "admin"));
          [exact Hrun | discriminate]. }
    destruct (Hdone Hupd) as [-> ->]. split; [reflexivity|].
    apply student_by_id_updated. rewrite Hst. eauto.
Qed.

Lemma update_rebuilds_document_witness :
  (Class.created_at Fixture.maths = 10000
   ∧ ∃ s',
       update_class Fixture.e0 "C" (ClassCreate.mk "Maths" "Geometry" "T")
         Fixture.teacher Fixture.school
       = (Returned (Class.mk "C" "Maths" "Geometry" "T" 5000250), s')
       ∧ class_by_id s' "C" = Some (Class.mk "C" "Maths" "Geometry" "T" 5000000))
  ∧ (Student.created_at Fixture.s1 = 20000
     ∧ ∃ s',
         update_student Fixture.e0 "S1" (StudentCreate.mk "Sam" "sam@home" "C" "7")
           Fixture.teacher Fixture.school
         = (Returned (Student.mk "S1" "Sam" "sam@home" "C" "7" 5000250), s')
         ∧ student_by_id s' "S1"
           = Some (Student.mk "S1" "Sam" "sam@home" "C" "7" 5000000)).
Proof.
  destruct (update_rebuilds_document Fixture.e0 Fixture.teacher Fixture.school)
    as (Hclass & Hstudent & _).
  split; (split; [reflexivity|]).
  - destruct (Hclass "C" (ClassCreate.mk "Maths" "Geometry" "T") Fixture.maths)
      as (s' & Hrun & Hfound & _); [reflexivity | right; reflexivity |].
    exists s'. split; [exact Hrun | exact Hfound].
  - destruct (Hstudent "S1" (StudentCreate.mk "Sam" "sam@home" "C" "7") Fixture.s1)
      as (s' & Hrun & Hfound & _); [reflexivity | |].
    + right. exists Fixture.maths. split; reflexivity.
    + exists s'. split; [exact Hrun | exact Hfound].
Defined.

(** ** The attendance ledger *)

(** The three attendance routes put a [datetime.date] into a filter.  On
    the handle of [server.py] the filter cannot be encoded: once the class
    is found and the actor is let through, the request dies on
    [InvalidDocument] and nothing is written. *)
Lemma mark_bulk_attendance_shipped e attendance_data u s c :
  shipped s →
  class_by_id s (AttendanceBulkCreate.class_id attendance_data) = Some c →
  canMutate u (Class.teacher_id c) = true →
  mark_bulk_attendance e attendance_data u s = (Unhandled InvalidDocument, s).
Proof.
  intros Hshipped Hclass Hcan. rewrite mark_bulk_attendance_eq. cbv zeta.
  rewrite Hclass, Hcan, Hshipped. reflexivity.
Qed.

Lemma get_attendance_shipped class_id d u s c :
  shipped s →
  class_by_id s class_id = Some c →
  canMutate u (Class.teacher_id c) = true →
  get_attendance class_id d u s = (Unhandled InvalidDocument, s).
Proof.
  intros Hshipped Hclass Hcan.
  rewrite get_attendance_eq, Hclass, Hcan, Hshipped. reflexivity.
Qed.

Lemma download_attendance_csv_shipped class_id start_date end_date u s c :
  shipped s →
  class_by_id s class_id = Some c →
  canMutate u (Class.teacher_id c) = true →
  download_attendance_csv class_id start_date end_date u s
  = (Unhandled InvalidDocument, s).
Proof.
  intros Hshipped Hclass Hcan.
  rewrite download_attendance_csv_eq, Hclass, Hcan, Hshipped. reflexivity.
Qed.

(** C2, where the code departs from it.  On the handle of [server.py],
    whatever the class, the date and the record list, a bulk write by an
    actor who passes the ownership rule on a stored class dies on
    [InvalidDocument] at [delete_many], before any row is deleted or
    inserted: the client is answered 500, and so is the repetition of the
    call.  After both calls the store is the one before the first, so the
    partition of the class and date holds the rows it held, not one row
    per input record. *)
Theorem bulk_mark_dies_encoding_the_date e1 e2 attendance_data u s c :
  let class_id := AttendanceBulkCreate.class_id attendance_data in
  let d := AttendanceBulkCreate.date attendance_data in
  shipped s →
  class_by_id s class_id = Some c →
  (UserResponse.role u = "admin" ∨ UserResponse.id u = Class.teacher_id c) →
  ∃ s1 s2,
    mark_bulk_attendance e1 attendance_data u s = (Unhandled InvalidDocument, s1)
    ∧ mark_bulk_attendance e2 attendance_data u s1 = (Unhandled InvalidDocument, s2)
    ∧ status_of (mark_bulk_attendance e1 attendance_data u s).1 = 500%nat
    ∧ s1 = s ∧ s2 = s
    ∧ partition s2 class_id d = partition s class_id d.
Proof.
  intros class_id d Hshipped Hclass Hcan. apply canMutate_true in Hcan.
  exists s, s.
  rewrite !(mark_bulk_attendance_shipped _ attendance_data u s c Hshipped Hclass Hcan).
  repeat split.
Qed.

Lemma bulk_mark_dies_encoding_the_date_witness :
  length Fixture.marks = 2%nat
  ∧ ∃ s1 s2,
      mark_bulk_attendance Fixture.e0
        (AttendanceBulkCreate.mk "C" Fixture.jan10 Fixture.marks) Fixture.teacher
        Fixture.school = (Unhandled InvalidDocument, s1)
      ∧ mark_bulk_attendance Fixture.e0
          (AttendanceBulkCreate.mk "C" Fixture.jan10 Fixture.marks) Fixture.teacher s1
        = (Unhandled InvalidDocument, s2)
      ∧ partition s2 "C" Fixture.jan10 = [].
Proof.
  split; [reflexivity|].
  destruct (bulk_mark_dies_encoding_the_date Fixture.e0 Fixture.e0
              (AttendanceBulkCreate.mk "C" Fixture.jan10 Fixture.marks)
              Fixture.teacher Fixture.school Fixture.maths)
    as (s1 & s2 & Hrun1 & Hrun2 & _ & _ & _ & Hsame).
  - reflexivity.
  - reflexivity.
  - right. reflexivity.
  - exists s1, s2. split; [exact Hrun1|]. split; [exact Hrun2|].
    cbn [AttendanceBulkCreate.class_id AttendanceBulkCreate.date] in Hsame.
    rewrite Hsame. reflexivity.
Defined.

(** The dict comprehension keeps, for each student, the status of the last
    row that names the student. *)
Lemma status_by_student_lookup (rows : list Attendance.t) (student_id : string) :
  status_by_student rows !! student_id = last_status rows student_id.
Proof.
  unfold status_by_student, last_status.
  induction rows as [|a rows IH] using rev_ind; [reflexivity|].
  rewrite foldl_snoc, filter_app, filter_cons, filter_nil.
  destruct (decide (Attendance.student_id a = student_id)) as [Ha|Ha].
  - rewrite Ha, lookup_insert_eq, last_snoc. reflexivity.
  - rewrite lookup_insert_ne by exact Ha. rewrite app_nil_r. exact IH.
Qed.

(** C3, where the code departs from it.  On the handle of [server.py],
    whatever the class, the date and the number of students, when the
    class is stored and the actor passes the ownership rule
    [get_attendance] returns no list at all: after the students have been
    read, the query for the rows of the day dies on [InvalidDocument], and
    the client is answered 500. *)
Theorem get_attendance_dies_encoding_the_date class_id d u s c :
  shipped s →
  class_by_id s class_id = Some c →
  (UserResponse.role u = "admin" ∨ UserResponse.id u = Class.teacher_id c) →
  get_attendance class_id d u s = (Unhandled InvalidDocument, s)
  ∧ status_of (get_attendance class_id d u s).1 = 500%nat
  ∧ ∀ rows s', get_attendance class_id d u s ≠ (Returned rows, s').
Proof.
  intros Hshipped Hclass Hcan. apply canMutate_true in Hcan.
  rewrite (get_attendance_shipped class_id d u s c Hshipped Hclass Hcan).
  repeat split. intros rows s'. discriminate.
Qed.

Lemma get_attendance_dies_encoding_the_date_witness :
  length (students_of Fixture.school "C") = 2%nat
  ∧ get_attendance "C" Fixture.jan10 Fixture.teacher Fixture.school
    = (Unhandled InvalidDocument, Fixture.school).
Proof.
  split; [reflexivity|].
  destruct (get_attendance_dies_encoding_the_date "C" Fixture.jan10 Fixture.teacher
              Fixture.school Fixture.maths) as (Hrun & _);
    [reflexivity | reflexivity | right; reflexivity | exact Hrun].
Defined.

(** ** The CSV report *)

(** C6, where the code departs from it.  On the handle of [server.py],
    whatever the class and the two dates, in order or not, when the class
    is stored and the actor passes the ownership rule the report is never
    produced, so it has no header: after the students have been read, the
    query for the rows of the range dies on [InvalidDocument], before the
    loop over the days, and the client is answered 500. *)
Theorem csv_report_dies_encoding_the_dates class_id start_date end_date u s c :
  shipped s →
  class_by_id s class_id = Some c →
  (UserResponse.role u = "admin" ∨ UserResponse.id u = Class.teacher_id c) →
  download_attendance_csv class_id start_date end_date u s
  = (Unhandled InvalidDocument, s)
  ∧ status_of (download_attendance_csv class_id start_date end_date u s).1 = 500%nat
  ∧ ∀ report s',
      download_attendance_csv class_id start_date end_date u s ≠ (Returned report, s').
Proof.
  intros Hshipped Hclass Hcan. apply canMutate_true in Hcan.
  rewrite (download_attendance_csv_shipped class_id start_date end_date u s c
             Hshipped Hclass Hcan).
  repeat split. intros report s'. discriminate.
Qed.

Lemma csv_report_dies_encoding_the_dates_witness :
  (Fixture.jan10 ≤ Fixture.jan10 + 2
   ∧ download_attendance_csv "C" Fixture.jan10 (Fixture.jan10 + 2) Fixture.teacher
       Fixture.school = (Unhandled InvalidDocument, Fixture.school))
  ∧ (Fixture.jan10 + 2 > Fixture.jan10
     ∧ download_attendance_csv "C" (Fixture.jan10 + 2) Fixture.jan10 Fixture.teacher
         Fixture.school = (Unhandled InvalidDocument, Fixture.school)).
Proof.
  split; (split; [unfold Fixture.jan10; lia|]).
  - destruct (csv_report_dies_encoding_the_dates "C" Fixture.jan10 (Fixture.jan10 + 2)
                Fixture.teacher Fixture.school Fixture.maths) as (Hrun & _);
      [reflexivity | reflexivity | right; reflexivity | exact Hrun].
  - destruct (csv_report_dies_encoding_the_dates "C" (Fixture.jan10 + 2) Fixture.jan10
                Fixture.teacher Fixture.school Fixture.maths) as (Hrun & _);
      [reflexivity | reflexivity | right; reflexivity | exact Hrun].
Defined.

(** ** Authentication and registration *)

Lemma password_accepted_secret : password_accepted "secret" = true.
Proof. reflexivity. Qed.

Lemma password_refused_nul : password_accepted Fixture.nul_password = false.
Proof. reflexivity. Qed.

Section Registration.
Variable bcrypt_hash : string → string → string.
Variable create_jwt_token : string → string.

Lemma register_user_eq e user_data s :
  register_user bcrypt_hash create_jwt_token e user_data s =
  match find_one (λ u, User.email u = UserCreate.email user_data) (users s) with
  | Some _ => (HTTPException 400 "Email already registered", s)
  | None =>
    if password_accepted (UserCreate.password user_data) then
      (Returned (AuthReply.mk "User registered successfully"
                   (create_jwt_token (uuid4 e 0))
                   (UserResponse_of_user (registered_user bcrypt_hash e user_data))),
       set_users (insert_one (registered_user bcrypt_hash e user_data)) s)
    else (Unhandled ValueError, s)
  end.
Proof.
  unfold register_user, hash_password. run.
  destruct (find_one _ _); [reflexivity|].
  destruct (password_accepted _); reflexivity.
Qed.

Lemma email_taken_find_one s email :
  email_taken s email ↔ is_Some (find_one (λ u, User.email u = email) (users s)).
Proof. unfold email_taken. rewrite find_one_is_Some. reflexivity. Qed.



Lemma register_user_free e user_data s :
  ¬ email_taken s (UserCreate.email user_data) →
  password_accepted (UserCreate.password user_data) = true →
  register_user bcrypt_hash create_jwt_token e user_data s
  = (Returned (AuthReply.mk "User registered successfully"
                 (create_jwt_token (uuid4 e 0))
                 (UserResponse_of_user (registered_user bcrypt_hash e user_data))),
     set_users (insert_one (registered_user bcrypt_hash e user_data)) s).
Proof.
  rewrite email_taken_find_one, register_user_eq. intros Hnot ->.
  destruct (find_one _ _); [|reflexivity]. destruct Hnot. eauto.
Qed.


End Registration.

Lemma school_email_free : ¬ email_taken Fixture.school "bob@school".
Proof.
  intros (u & Hu & Hemail). revert Hemail.
  repeat (apply elem_of_cons in Hu as [->|Hu]; [discriminate|]).
  inversion Hu.
Qed.



(** ** Listings *)

(** C8, as amended.  Listing classes returns the first 1000 of all the
    stored classes when the actor is an admin, and the first 1000 of the
    classes whose [teacher_id] is the actor's id when the actor's role is
    "teacher": in that case every class returned is the actor's, and all of
    them are returned when there are at most 1000.  Listing students never
    looks at the actor: whoever asks receives the first 1000 of the
    students that match the optional [class_id] filter, an absent or empty
    [class_id] standing for no filter. *)
Theorem listing_filters u s :
  (UserResponse.role u = "admin" →
   get_classes u s = (Returned (take 1000 (classes s)), s))
  ∧ (UserResponse.role u = "teacher" →
     ∃ own,
       get_classes u s = (Returned own, s)
       ∧ own = take 1000 (filter (λ c, Class.teacher_id c = UserResponse.id u)
                            (classes s))
       ∧ (∀ c, c ∈ own → c ∈ classes s ∧ Class.teacher_id c = UserResponse.id u)
       ∧ ((length (classes s) ≤ 1000)%nat →
          ∀ c, c ∈ classes s → Class.teacher_id c = UserResponse.id u → c ∈ own))
  ∧ (∀ class_id,
       get_students class_id u s
       = (Returned (take 1000
                      (filter (student_query
                                 (if truthy class_id then class_id else None))
                         (students s))), s))
  ∧ (∀ class_id u', get_students class_id u s = get_students class_id u' s).
Proof.
  split; [|split; [|split]].
  - intros Hrole. unfold get_classes. rewrite Hrole. reflexivity.
  - intros Hrole. unfold get_classes. rewrite Hrole.
    eexists. split; [reflexivity|]. split; [reflexivity|]. split.
    + intros c Hc. apply elem_of_take in Hc as (i & Hc & _).
      apply list_elem_of_lookup_2 in Hc. apply list_elem_of_filter in Hc.
      destruct Hc. split; assumption.
    + intros Hfew c Hc Hown. unfold find. rewrite take_ge.
      * apply list_elem_of_filter. split; assumption.
      * etransitivity; [apply length_filter | exact Hfew].
  - reflexivity.
  - reflexivity.
Qed.

Lemma listing_filters_witness :
  get_classes Fixture.admin Fixture.school
  = (Returned [Fixture.maths; Fixture.physics], Fixture.school)
  ∧ ∃ own, get_classes Fixture.teacher2 Fixture.school = (Returned own, Fixture.school)
           ∧ own = [Fixture.physics].
Proof.
  destruct (listing_filters Fixture.admin Fixture.school) as (Hadmin & _).
  destruct (listing_filters Fixture.teacher2 Fixture.school) as (_ & Hteacher & _).
  split.
  - apply Hadmin. reflexivity.
  - destruct (Hteacher eq_refl) as (own & Hrun & Hown & _).
    exists own. split; [exact Hrun | exact Hown].
Defined.

(** C8 fails as stated in four places: an admin who lists 1001 classes
    receives 1000; an actor who is neither an admin nor a teacher receives
    every class, those of other teachers included; a student listing is cut
    at 1000 as well; and an empty [class_id] selects every student, not the
    students whose class has the empty id. *)
Lemma listings_capped_and_open_to_other_roles :
  (authenticated Fixture.big_school Fixture.admin
   ∧ authenticated Fixture.school Fixture.guest
   ∧ authenticated Fixture.school Fixture.teacher2)
  ∧ (UserResponse.role Fixture.admin = "admin"
   ∧ length (classes Fixture.big_school) = 1001%nat
   ∧ length <$> (get_classes Fixture.admin Fixture.big_school).1 = Returned 1000%nat)
  ∧ (UserResponse.role Fixture.guest ≠ "admin"
     ∧ Class.teacher_id Fixture.physics ≠ UserResponse.id Fixture.guest
     ∧ (get_classes Fixture.guest Fixture.school).1
       = Returned [Fixture.maths; Fixture.physics])
  ∧ (length (filter (student_query None) (students Fixture.big_school)) = 1001%nat
     ∧ length <$> (get_students None Fixture.teacher2 Fixture.big_school).1
       = Returned 1000%nat)
  ∧ (filter (student_query (Some EmptyString)) (students Fixture.school) = []
     ∧ (get_students (Some EmptyString) Fixture.teacher2 Fixture.school).1
       = Returned [Fixture.s1; Fixture.s2; Fixture.orphan]).
Proof.
  split; [|split; [|split; [|split]]].
  - split; [|split].
    + exists (Fixture.stored Fixture.admin). split; repeat constructor.
    + exists (Fixture.stored Fixture.guest). split; repeat constructor.
    + exists (Fixture.stored Fixture.teacher2). split; repeat constructor.
  - split; [reflexivity|]. split; vm_compute; reflexivity.
  - split; [discriminate|]. split; [discriminate | reflexivity].
  - split; vm_compute; reflexivity.
  - split; reflexivity.
Qed.

(** ** A day at the school *)

(** The deletion of a student whose class is gone has the same unguarded
    lookup as the update: a teacher's request dies on the [TypeError], an
    admin's goes through. *)
Example delete_orphan_student :
  delete_student "S9" Fixture.teacher Fixture.school
  = (Unhandled TypeError, Fixture.school)
  ∧ (delete_student "S9" Fixture.admin Fixture.school).1
    = Returned "Student deleted successfully".
Proof. split; reflexivity. Qed.

(** What the attendance routes go on to do behind a handle that encodes
    dates.  tom marks Sam present and Sue absent, a third student then
    joins the class, and the attendance of the day shows the newcomer as
    "not_marked"; marking the same day again leaves two rows; the report of
    three days has five columns. *)
Example late_enrolment_is_not_marked :
  let marked :=
    (mark_bulk_attendance Fixture.e0
       (AttendanceBulkCreate.mk "C" Fixture.jan10 Fixture.marks)
       Fixture.teacher (Fixture.with_date_codec Fixture.school)).2 in
  let enrolled :=
    (create_student Fixture.e0 (StudentCreate.mk "Tim" "tim@school" "C" "3")
       Fixture.teacher marked).2 in
  let marked_again :=
    (mark_bulk_attendance Fixture.e0
       (AttendanceBulkCreate.mk "C" Fixture.jan10 Fixture.marks)
       Fixture.teacher marked).2 in
  (get_attendance "C" Fixture.jan10 Fixture.teacher marked).1
  = Returned [AttendanceRow.mk "S1" "Sam" "1" "present";
              AttendanceRow.mk "S2" "Sue" "2" "absent"]
  ∧ (get_attendance "C" Fixture.jan10 Fixture.teacher enrolled).1
    = Returned [AttendanceRow.mk "S1" "Sam" "1" "present";
                AttendanceRow.mk "S2" "Sue" "2" "absent";
                AttendanceRow.mk "uuid-0" "Tim" "3" "not_marked"]
  ∧ length (partition marked_again "C" Fixture.jan10) = 2%nat
  ∧ header_of <$> (download_attendance_csv "C" Fixture.jan10 (Fixture.jan10 + 2)
                     Fixture.teacher marked).1
    = Returned ["Student Name"; "Roll Number"; "2024-01-10"; "2024-01-11"; "2024-01-12"].
Proof. repeat split. Qed.

(** Behind such a handle a record whose [status] is missing, or is [null],
    kills the write after the partition has been emptied. *)
Example bulk_mark_record_without_status :
  let marked :=
    (mark_bulk_attendance Fixture.e0
       (AttendanceBulkCreate.mk "C" Fixture.jan10 Fixture.marks)
       Fixture.teacher (Fixture.with_date_codec Fixture.school)).2 in
  length (partition marked "C" Fixture.jan10) = 2%nat
  ∧ mark_bulk_attendance Fixture.e0
      (AttendanceBulkCreate.mk "C" Fixture.jan10 [ {[ "student_id" := JString "S1" ]} ])
      Fixture.teacher marked
    = (Unhandled (KeyError "status"), Fixture.with_date_codec Fixture.school)
  ∧ mark_bulk_attendance Fixture.e0
      (AttendanceBulkCreate.mk "C" Fixture.jan10
         [ {[ "student_id" := JString "S1"; "status" := JNull ]} ])
      Fixture.teacher marked
    = (Unhandled ValidationError, Fixture.with_date_codec Fixture.school).
Proof. repeat split. Qed.

(** * Further properties *)

(** ** More about collections *)

Section MoreCollectionFacts.
Context {A : Type} (P : A → Prop) `{!∀ x, Decision (P x)}.

Lemma find_one_app (l k : list A) :
  find_one P (l ++ k) =
  match find_one P l with
  | Some x => Some x
  | None => find_one P k
  end.
Proof.
  induction l as [|y l IH]; [reflexivity|].
  rewrite <- app_comm_cons, !find_one_cons.
  destruct (decide (P y)); [reflexivity | exact IH].
Qed.

Lemma delete_one_sublist (l : list A) : sublist (delete_one P l) l.
Proof.
  induction l as [|y l IH]; [constructor|]. simpl.
  destruct (decide (P y)); [apply sublist_cons, reflexivity | apply sublist_skip, IH].
Qed.

Lemma delete_one_other (l : list A) (x : A) : ¬ P x → x ∈ l → x ∈ delete_one P l.
Proof.
  intros Hx. induction l as [|y l IH]; [trivial|]. simpl. intros Hin.
  destruct (decide (P y)) as [Hy|Hy].
  - inversion Hin; subst; [contradiction | assumption].
  - inversion Hin; subst; [left | right; auto].
Qed.
End MoreCollectionFacts.

(** Documents whose key [key x] is unique and is kept by the store:
    deleting by key leaves no document with that key, and updating by key
    with a document of the same key keeps the list of keys. *)
Section KeyedCollections.
Context {A : Type} `{!Bson A} (key : A → string).
Hypothesis key_as_stored : ∀ doc, key (as_stored doc) = key doc.

Lemma find_one_delete_one (k : string) (l : list A) :
  NoDup (key <$> l) →
  find_one (λ x, key x = k) (delete_one (λ x, key x = k) l) = None.
Proof.
  induction l as [|y l IH]; [reflexivity|]. rewrite fmap_cons, NoDup_cons.
  intros [Hy Hl]. simpl. destruct (decide (key y = k)) as [Hk|Hk].
  - apply find_one_None. intros x Hx Hkx. apply Hy. rewrite Hk, <- Hkx.
    apply list_elem_of_fmap. eauto.
  - rewrite find_one_cons. destruct (decide (key y = k)); [contradiction|].
    apply IH, Hl.
Qed.

Lemma update_one_keys (k : string) (doc : A) (l : list A) :
  key doc = k → key <$> update_one (λ x, key x = k) doc l = key <$> l.
Proof.
  intros Hdoc. induction l as [|y l IH]; [reflexivity|]. cbn [update_one].
  destruct (decide (key y = k)) as [Hk|Hk]; rewrite !fmap_cons.
  - rewrite key_as_stored, Hdoc, Hk. reflexivity.
  - rewrite IH. reflexivity.
Qed.

Lemma delete_one_keys_NoDup (k : string) (l : list A) :
  NoDup (key <$> l) → NoDup (key <$> delete_one (λ x, key x = k) l).
Proof.
  intros Hl. eapply sublist_NoDup; [exact Hl|].
  apply fmap_sublist, delete_one_sublist.
Qed.

Lemma insert_one_keys_NoDup (doc : A) (l : list A) :
  NoDup (key <$> l) → key doc ∉ (key <$> l) → NoDup (key <$> insert_one doc l).
Proof.
  intros Hl Hdoc. unfold insert_one. rewrite fmap_app.
  apply NoDup_app. split; [exact Hl|]. split; [|apply NoDup_singleton].
  intros x Hx Hx'. apply list_elem_of_singleton in Hx'. simpl in Hx'.
  rewrite key_as_stored in Hx'. congruence.
Qed.
End KeyedCollections.

(** ** Logging in and being recognised *)

Lemma login_user_eq bcrypt_verify create_jwt_token login_data s :
  login_user bcrypt_verify create_jwt_token login_data s =
  match find_one (λ u, User.email u = UserLogin.email login_data) (users s) with
  | Some user =>
    match verify_password bcrypt_verify (UserLogin.password login_data)
            (User.password_hash user) with
    | Returned true =>
        (Returned (AuthReply.mk "Login successful" (create_jwt_token (User.id user))
                     (UserResponse_of_user user)), s)
    | Returned false => (HTTPException 400 "Invalid email or password", s)
    | HTTPException c msg => (HTTPException c msg, s)
    | Unhandled err => (Unhandled err, s)
    end
  | None => (HTTPException 400 "Invalid email or password", s)
  end.
Proof.
  unfold login_user. run. destruct (find_one _ _) as [user|]; [|reflexivity].
  destruct (verify_password _ _ _) as [[|]| |]; reflexivity.
Qed.

Lemma verify_password_cases bcrypt_verify plain_password hashed_password :
  verify_password bcrypt_verify plain_password hashed_password =
  if password_accepted plain_password then
    match bcrypt_verify plain_password hashed_password with
    | Some verdict => Returned verdict
    | None => Unhandled ValueError
    end
  else Unhandled ValueError.
Proof. reflexivity. Qed.

(** X1.  A login never writes to the store, and has three outcomes.  It
    succeeds only for a stored user who carries the email, with a password
    that passlib accepts and that verifies against the stored hash, and
    then answers with that user's public fields and a token for that
    user's id.  It is turned away with the 400 "Invalid email or password"
    when the email is unknown, whatever the password, or when the password
    does not verify.  And it dies on a [ValueError], for a client a 500,
    only when the email is that of a stored user and either the password
    is one passlib refuses (more than 4096 characters, or a NUL) or the
    stored hash is one it cannot read. *)
Theorem login_user_outcomes bcrypt_verify create_jwt_token login_data s :
  (login_user bcrypt_verify create_jwt_token login_data s).2 = s
  ∧ (¬ email_taken s (UserLogin.email login_data) →
     (login_user bcrypt_verify create_jwt_token login_data s).1
     = HTTPException 400 "Invalid email or password")
  ∧ ((∃ user,
        user ∈ users s
        ∧ User.email user = UserLogin.email login_data
        ∧ password_accepted (UserLogin.password login_data) = true
        ∧ bcrypt_verify (UserLogin.password login_data) (User.password_hash user)
          = Some true
        ∧ (login_user bcrypt_verify create_jwt_token login_data s).1
          = Returned (AuthReply.mk "Login successful" (create_jwt_token (User.id user))
                        (UserResponse_of_user user)))
     ∨ (login_user bcrypt_verify create_jwt_token login_data s).1
       = HTTPException 400 "Invalid email or password"
     ∨ (∃ user,
          user ∈ users s
          ∧ User.email user = UserLogin.email login_data
          ∧ (password_accepted (UserLogin.password login_data) = false
             ∨ bcrypt_verify (UserLogin.password login_data) (User.password_hash user)
               = None)
          ∧ (login_user bcrypt_verify create_jwt_token login_data s).1
            = Unhandled ValueError)).
Proof.
  rewrite login_user_eq.
  destruct (find_one _ _) as [user|] eqn:Huser.
  - apply find_one_Some in Huser as Hfound. destruct Hfound as [Hin Hemail].
    rewrite verify_password_cases.
    split; [|split].
    + destruct (password_accepted _); [|reflexivity].
      destruct (bcrypt_verify _ _) as [[|]|]; reflexivity.
    + intros Hfree. destruct Hfree. exists user. split; assumption.
    + destruct (password_accepted _) eqn:Hok.
      * destruct (bcrypt_verify _ _) as [[|]|] eqn:Hverify.
        -- left. exists user.
           split; [exact Hin|]. split; [exact Hemail|]. split; [reflexivity|].
           split; [exact Hverify | reflexivity].
        -- right. left. reflexivity.
        -- right. right. exists user.
           split; [exact Hin|]. split; [exact Hemail|].
           split; [right; exact Hverify | reflexivity].
      * right. right. exists user.
        split; [exact Hin|]. split; [exact Hemail|].
        split; [left; reflexivity | reflexivity].
  - split; [reflexivity|]. split; [reflexivity|]. right. left. reflexivity.
Qed.

Section RoundTrips.
Variable bcrypt_hash : string → string → string.
Variable bcrypt_verify : string → string → option bool.
Variable create_jwt_token : string → string.
Variable jwt_decode : string → option (gmap string json).
Variable find_one_by_filter : json → list User.t → result (option User.t).

Lemma find_registered_by_email e user_data s :
  ¬ email_taken s (UserCreate.email user_data) →
  find_one (λ u, User.email u = UserCreate.email user_data)
    (users (set_users (insert_one (registered_user bcrypt_hash e user_data)) s))
  = Some (as_stored (registered_user bcrypt_hash e user_data)).
Proof.
  intros Hfree. unfold set_users, insert_one. cbn [users].
  rewrite find_one_app.
  destruct (find_one _ (users s)) as [u|] eqn:Hu.
  - destruct Hfree. apply email_taken_find_one. rewrite Hu. eauto.
  - rewrite find_one_cons. destruct (decide _) as [|Hne]; [reflexivity|].
    destruct Hne. reflexivity.
Qed.

(** X2.  Registration and login compose, up to the precision of the
    store: when the email is free, the password is one passlib accepts and
    it verifies against the hash that registration stores for it, logging
    in right after registering, with the same email and password, succeeds
    and returns the same token and the same user as the registration did,
    except that the user's [created_at] has lost its microseconds; a
    password that is accepted but does not verify against that hash is
    turned away with the 400. *)
Theorem register_then_login e user_data s :
  ¬ email_taken s (UserCreate.email user_data) →
  password_accepted (UserCreate.password user_data) = true →
  bcrypt_verify (UserCreate.password user_data)
    (bcrypt_hash (gensalt e) (UserCreate.password user_data)) = Some true →
  ∃ reply s1,
    register_user bcrypt_hash create_jwt_token e user_data s = (Returned reply, s1)
    ∧ UserResponse.created_at (AuthReply.user reply) = utcnow e 0
    ∧ login_user bcrypt_verify create_jwt_token
        (UserLogin.mk (UserCreate.email user_data) (UserCreate.password user_data)) s1
      = (Returned
           (AuthReply.mk "Login successful" (AuthReply.token reply)
              (UserResponse.mk
                 (UserResponse.id (AuthReply.user reply))
                 (UserResponse.username (AuthReply.user reply))
                 (UserResponse.email (AuthReply.user reply))
                 (UserResponse.role (AuthReply.user reply))
                 (bson_datetime (utcnow e 0)))), s1)
    ∧ ∀ wrong,
        password_accepted wrong = true →
        bcrypt_verify wrong
          (bcrypt_hash (gensalt e) (UserCreate.password user_data)) = Some false →
        login_user bcrypt_verify create_jwt_token
          (UserLogin.mk (UserCreate.email user_data) wrong) s1
        = (HTTPException 400 "Invalid email or password", s1).
Proof.
  intros Hfree Hok Hverify. eexists _, _.
  split; [apply register_user_free; assumption|]. split; [reflexivity|]. split.
  - rewrite login_user_eq. cbn [UserLogin.email UserLogin.password].
    rewrite find_registered_by_email by exact Hfree.
    rewrite verify_password_cases, Hok.
    unfold registered_user at 1.
    cbn [as_stored User_bson User_of_payload User.password_hash].
    rewrite Hverify. reflexivity.
  - intros wrong Hok_wrong Hwrong. rewrite login_user_eq.
    cbn [UserLogin.email UserLogin.password].
    rewrite find_registered_by_email by exact Hfree.
    rewrite verify_password_cases, Hok_wrong.
    unfold registered_user at 1.
    cbn [as_stored User_bson User_of_payload User.password_hash].
    rewrite Hwrong. reflexivity.
Qed.

(** X3.  The token of a registration is accepted: when the email is free,
    the password is one passlib accepts, the fresh id is not empty and is
    the id of no stored user, and the token codec gives back the payload
    it signed, [get_current_user] on the token that the registration
    returned yields the user that the registration returned, with a
    [created_at] that has lost its microseconds, and writes nothing. *)
Theorem register_then_get_current_user e user_data s :
  ¬ email_taken s (UserCreate.email user_data) →
  password_accepted (UserCreate.password user_data) = true →
  uuid4 e 0 ≠ EmptyString →
  (∀ u, u ∈ users s → User.id u ≠ uuid4 e 0) →
  jwt_decode (create_jwt_token (uuid4 e 0))
  = Some {[ "user_id" := JString (uuid4 e 0) ]} →
  ∃ reply s1,
    register_user bcrypt_hash create_jwt_token e user_data s = (Returned reply, s1)
    ∧ UserResponse.created_at (AuthReply.user reply) = utcnow e 0
    ∧ get_current_user (decode_jwt_token jwt_decode) find_one_by_filter
        (AuthReply.token reply) s1
      = (Returned
           (UserResponse.mk
              (UserResponse.id (AuthReply.user reply))
              (UserResponse.username (AuthReply.user reply))
              (UserResponse.email (AuthReply.user reply))
              (UserResponse.role (AuthReply.user reply))
              (bson_datetime (utcnow e 0))), s1).
Proof.
  intros Hfree Hok Hid Hnew Hcodec. eexists _, _.
  split; [apply register_user_free; assumption|]. split; [reflexivity|].
  cbn [AuthReply.token AuthReply.user].
  unfold get_current_user, decode_jwt_token, find_one_user. rewrite Hcodec. run.
  rewrite lookup_singleton_eq. unfold json_truthy.
  rewrite bool_decide_eq_true_2 by exact Hid. cbn [negb].
  unfold set_users, insert_one. cbn [users]. rewrite find_one_app.
  destruct (find_one _ (users s)) as [u|] eqn:Hu.
  - apply find_one_Some in Hu as [Hin Hsame]. destruct (Hnew u Hin Hsame).
  - rewrite find_one_cons. destruct (decide _) as [|Hne]; [reflexivity|].
    destruct Hne. reflexivity.
Qed.
End RoundTrips.

Lemma register_then_login_witness :
  ∃ reply s1,
    register_user Demo.bcrypt_hash Demo.create_jwt_token Fixture.e0 Fixture.bob
      Fixture.school = (Returned reply, s1)
    ∧ AuthReply.user reply
      = UserResponse.mk "uuid-0" "bob" "bob@school" "teacher" 5000250
    ∧ login_user Demo.bcrypt_verify Demo.create_jwt_token
        (UserLogin.mk "bob@school" "secret") s1
      = (Returned (AuthReply.mk "Login successful" "jwt uuid-0"
                     (UserResponse.mk "uuid-0" "bob" "bob@school" "teacher" 5000000)),
         s1).
Proof.
  destruct (register_then_login Demo.bcrypt_hash Demo.bcrypt_verify
              Demo.create_jwt_token Fixture.e0 Fixture.bob Fixture.school)
    as (reply & s1 & Hregister & _ & Hlogin & _);
    [exact school_email_free | reflexivity | reflexivity |].
  exists reply, s1. split; [exact Hregister|].
  assert (reply = AuthReply.mk "User registered successfully" "jwt uuid-0"
                    (UserResponse.mk "uuid-0" "bob" "bob@school" "teacher" 5000250))
    as Hreply.
  { vm_compute in Hregister. congruence. }
  rewrite Hreply in Hlogin |- *. split; [reflexivity | exact Hlogin].
Defined.

Lemma register_then_get_current_user_witness :
  ∃ reply s1,
    register_user Demo.bcrypt_hash Demo.create_jwt_token Fixture.e0 Fixture.bob
      Fixture.school = (Returned reply, s1)
    ∧ get_current_user (decode_jwt_token Demo.jwt_decode) Demo.find_one_by_filter
        (AuthReply.token reply) s1
      = (Returned (UserResponse.mk "uuid-0" "bob" "bob@school" "teacher" 5000000), s1).
Proof.
  destruct (register_then_get_current_user Demo.bcrypt_hash Demo.create_jwt_token
              Demo.jwt_decode Demo.find_one_by_filter Fixture.e0 Fixture.bob
              Fixture.school)
    as (reply & s1 & Hregister & _ & Hcurrent).
  - exact school_email_free.
  - reflexivity.
  - discriminate.
  - intros u Hu.
    repeat (apply elem_of_cons in Hu as [->|Hu]; [discriminate|]).
    inversion Hu.
  - reflexivity.
  - exists reply, s1. split; [exact Hregister|].
    assert (reply = AuthReply.mk "User registered successfully" "jwt uuid-0"
                      (UserResponse.mk "uuid-0" "bob" "bob@school" "teacher" 5000250))
      as Hreply.
    { vm_compute in Hregister. congruence. }
    rewrite Hreply in Hcurrent |- *. exact Hcurrent.
Defined.

(** X4.  [get_current_user] never writes.  A token that does not verify,
    and a payload whose [user_id] is absent, [null], empty or otherwise
    false, are answered 401 "Invalid token".  When the [user_id] is a
    string that is not empty, the answer is the stored user who has that
    id, or 401 "User not found": never an exception, never a stranger.
    Nothing checks that the [user_id] is a string: any other true value is
    handed to the store as the filter, and the actor is whoever the store
    selects for it. *)
Theorem get_current_user_outcomes jwt_decode find_one_by_filter token s :
  (get_current_user (decode_jwt_token jwt_decode) find_one_by_filter token s).2 = s
  ∧ (jwt_decode token = None →
     (get_current_user (decode_jwt_token jwt_decode) find_one_by_filter token s).1
     = HTTPException 401 "Invalid token")
  ∧ (∀ payload,
       jwt_decode token = Some payload →
       default false (json_truthy <$> payload !! "user_id") = false →
       (get_current_user (decode_jwt_token jwt_decode) find_one_by_filter token s).1
       = HTTPException 401 "Invalid token")
  ∧ (∀ payload user_id,
       jwt_decode token = Some payload →
       payload !! "user_id" = Some (JString user_id) →
       user_id ≠ EmptyString →
       (∃ user,
          user ∈ users s ∧ User.id user = user_id
          ∧ (get_current_user (decode_jwt_token jwt_decode) find_one_by_filter token s).1
            = Returned (UserResponse_of_user user))
       ∨ ((∀ user, user ∈ users s → User.id user ≠ user_id)
          ∧ (get_current_user (decode_jwt_token jwt_decode) find_one_by_filter token s).1
            = HTTPException 401 "User not found"))
  ∧ (∀ payload as_str,
       jwt_decode token = Some payload →
       payload !! "user_id" = Some (JOther true as_str) →
       (get_current_user (decode_jwt_token jwt_decode) find_one_by_filter token s).1
       = match find_one_by_filter (JOther true as_str) (users s) with
         | Returned (Some user) => Returned (UserResponse_of_user user)
         | Returned None => HTTPException 401 "User not found"
         | HTTPException c msg => HTTPException c msg
         | Unhandled err => Unhandled err
         end).
Proof.
  unfold get_current_user, decode_jwt_token, find_one_user. run.
  split; [|split; [|split; [|split]]].
  - destruct (jwt_decode token) as [payload|]; [|reflexivity].
    destruct (payload !! "user_id") as [[user_id| |truth as_str]|]; [| | |reflexivity].
    + destruct (negb _); [reflexivity|]. destruct (find_one _ _); reflexivity.
    + reflexivity.
    + destruct (negb _); [reflexivity|].
      destruct (find_one_by_filter _ _) as [[user|]| |]; reflexivity.
  - intros ->. reflexivity.
  - intros payload -> Hfalse.
    destruct (payload !! "user_id") as [user_id|]; [|reflexivity].
    cbn [fmap option_fmap option_map default from_option id] in Hfalse.
    rewrite Hfalse. reflexivity.
  - intros payload user_id -> -> Hid. unfold json_truthy.
    rewrite bool_decide_eq_true_2 by exact Hid. cbn [negb].
    destruct (find_one _ (users s)) as [user|] eqn:Huser.
    + left. exists user. apply find_one_Some in Huser as [Hin Hsame].
      split; [exact Hin|]. split; [exact Hsame | reflexivity].
    + right. split; [|reflexivity].
      intros user Hin. eapply find_one_None in Huser; [exact Huser | exact Hin].
  - intros payload as_str -> ->. cbn [json_truthy negb].
    destruct (find_one_by_filter _ _) as [[user|]| |]; reflexivity.
Qed.

Lemma get_current_user_outcomes_witness :
  get_current_user (decode_jwt_token Demo.jwt_decode) Demo.find_one_by_filter "jwt T"
    Fixture.school
  = (Returned Fixture.teacher, Fixture.school)
  ∧ (get_current_user (decode_jwt_token Demo.jwt_decode) Demo.find_one_by_filter
       "no token" Fixture.school).1
    = HTTPException 401 "Invalid token".
Proof.
  destruct (get_current_user_outcomes Demo.jwt_decode Demo.find_one_by_filter
              "no token" Fixture.school) as (_ & Hinvalid & _).
  split; [reflexivity|]. apply Hinvalid. reflexivity.
Defined.

(** X5.  Registration keeps the stored emails pairwise distinct: if no two
    stored users share an email before a registration, none do after it,
    whether it succeeded or was refused. *)
Theorem register_keeps_emails_distinct bcrypt_hash create_jwt_token e user_data s :
  NoDup (User.email <$> users s) →
  NoDup (User.email
         <$> users (register_user bcrypt_hash create_jwt_token e user_data s).2).
Proof.
  intros Hdistinct. rewrite register_user_eq.
  destruct (find_one _ (users s)) as [u|] eqn:Hu; [exact Hdistinct|].
  destruct (password_accepted _); [|exact Hdistinct].
  unfold set_users. cbn [snd users].
  apply insert_one_keys_NoDup; [reflexivity | exact Hdistinct|].
  intros Hin. apply list_elem_of_fmap in Hin as (u & Hemail & Hin).
  eapply find_one_None in Hu; [|exact Hin]. apply Hu. symmetry. exact Hemail.
Qed.

Lemma register_keeps_emails_distinct_witness :
  NoDup (User.email
         <$> users (register_user Demo.bcrypt_hash Demo.create_jwt_token
                      Fixture.e0 Fixture.bob Fixture.school).2).
Proof.
  apply (register_keeps_emails_distinct Demo.bcrypt_hash Demo.create_jwt_token
           Fixture.e0 Fixture.bob Fixture.school).
  apply (bool_decide_unpack _). vm_compute. exact I.
Defined.

(** X6.  The list of users is for admins only: any other role is answered
    403 "Only admins can view users"; an admin receives, in stored order,
    the public fields of the first 1000 stored users, so every entry is a
    stored user and the answer never has more than 1000 entries.  Neither
    answer writes to the store. *)
Theorem get_users_admin_only u s :
  (UserResponse.role u ≠ "admin" →
   get_users u s = (HTTPException 403 "Only admins can view users", s))
  ∧ (UserResponse.role u = "admin" →
     ∃ listed,
       get_users u s = (Returned listed, s)
       ∧ length listed = (1000 `min` length (users s))%nat
       ∧ (∀ i, listed !! i = UserResponse_of_user <$> take 1000 (users s) !! i)
       ∧ ∀ actor, actor ∈ listed → authenticated s actor).
Proof.
  unfold get_users. split; intros Hrole.
  - rewrite bool_decide_eq_true_2 by exact Hrole. reflexivity.
  - rewrite bool_decide_eq_false_2 by (intros Hne; contradiction).
    eexists. split; [reflexivity|]. split; [|split].
    + unfold to_list. rewrite length_fmap, length_take. reflexivity.
    + intros i. apply list_lookup_fmap.
    + intros actor Hin. apply list_elem_of_fmap in Hin as (user & -> & Hin).
      exists user. split; [|reflexivity].
      apply elem_of_take in Hin as (i & Hi & _).
      eapply list_elem_of_lookup_2, Hi.
Qed.

Lemma get_users_admin_only_witness :
  get_users Fixture.teacher Fixture.school
  = (HTTPException 403 "Only admins can view users", Fixture.school)
  ∧ ∃ listed, get_users Fixture.admin Fixture.school = (Returned listed, Fixture.school)
              ∧ length listed = 4%nat.
Proof.
  destruct (get_users_admin_only Fixture.teacher Fixture.school) as [Hteacher _].
  destruct (get_users_admin_only Fixture.admin Fixture.school) as [_ Hadmin].
  split; [apply Hteacher; discriminate|].
  destruct (Hadmin eq_refl) as (listed & Hrun & Hlen & _).
  exists listed. split; [exact Hrun | exact Hlen].
Defined.

Lemma bind_ret_fmap {A B} (f : A → B) (m : M A) (s : db) :
  (x ← m; mret (f x)) s = (f <$> (m s).1, (m s).2).
Proof. run. destruct (m s) as [[a| |] s']; reflexivity. Qed.

(** ** How a guarded request can fail *)

Lemma build_attendance_records_unhandled e class_id d k records err :
  build_attendance_records e class_id d k records = Unhandled err →
  err = KeyError "student_id" ∨ err = KeyError "status" ∨ err = ValidationError.
Proof.
  revert k. induction records as [|record records IH]; intros k; [discriminate|].
  rewrite build_attendance_records_cons.
  destruct (record !! "student_id") as [student_id|]; [|intros [= <-]; auto].
  destruct (record !! "status") as [status|]; [|intros [= <-]; auto].
  assert (∀ v err', validate_str v = Unhandled err' → err' = ValidationError) as Hstr.
  { intros [s0| |truth [s0|]] err'; try discriminate; intros [= <-]; reflexivity. }
  destruct (validate_str student_id) eqn:Hid;
    [|destruct (validate_str_not_http _ _ _ Hid)
     |intros [= <-]; right; right; eapply Hstr, Hid].
  destruct (validate_str status) eqn:Hstatus;
    [|destruct (validate_str_not_http _ _ _ Hstatus)
     |intros [= <-]; right; right; eapply Hstr, Hstatus].
  specialize (IH (S k)).
  destruct (build_attendance_records e class_id d (S k) records);
    [discriminate | discriminate | intros [= <-]; apply IH; reflexivity].
Qed.

(** X7.  The failures of the guarded routes on the handle of [server.py].
    An [HTTPException] of a guarded request is a 403 or a 404.  An
    exception that escapes the handler is a [TypeError] on a student update
    or deletion, or an [InvalidDocument] on one of the three attendance
    routes; no other guarded route lets an exception escape.  The three
    attendance routes never return: every request to them ends in a 404, a
    403 or the [InvalidDocument].  And a guarded request that fails, in
    whichever way, has written nothing. *)
Theorem guarded_request_failures e u req s :
  shipped s →
  match (api_router e u req s).1 with
  | Returned _ =>
      match req with
      | POST_attendance_bulk _ | GET_attendance _ _
      | GET_attendance_report_csv _ _ _ => False
      | _ => True
      end
  | HTTPException status_code _ =>
      (status_code = 403%nat ∨ status_code = 404%nat) ∧ (api_router e u req s).2 = s
  | Unhandled err =>
      (api_router e u req s).2 = s
      ∧ match req with
        | PUT_students _ _ | DELETE_students _ => err = TypeError
        | POST_attendance_bulk _ | GET_attendance _ _
        | GET_attendance_report_csv _ _ _ => err = InvalidDocument
        | _ => False
        end
  end.
Proof.
  intros Hshipped. destruct req; unfold api_router; rewrite bind_ret_fmap.
  - rewrite create_class_eq. destruct (canMutate _ _); simpl; auto.
  - rewrite update_class_eq. destruct (class_by_id _ _); [|simpl; auto].
    destruct (canMutate _ _); simpl; auto.
  - rewrite delete_class_eq. destruct (class_by_id _ _); [|simpl; auto].
    destruct (canMutate _ _); simpl; auto.
  - rewrite create_student_eq. destruct (class_by_id _ _); [|simpl; auto].
    destruct (canMutate _ _); simpl; auto.
  - rewrite update_student_eq. destruct (student_by_id _ _); [|simpl; auto].
    destruct (class_by_id _ _).
    + destruct (canMutate _ _); simpl; auto.
    + destruct (bool_decide _); simpl; auto.
  - rewrite delete_student_eq. destruct (student_by_id _ _); [|simpl; auto].
    destruct (class_by_id _ _).
    + destruct (canMutate _ _); simpl; auto.
    + destruct (bool_decide _); simpl; auto.
  - rewrite mark_bulk_attendance_eq. cbv zeta.
    destruct (class_by_id _ _); [|simpl; auto].
    destruct (canMutate _ _); [|simpl; auto].
    rewrite Hshipped. simpl. auto.
  - rewrite get_attendance_eq. destruct (class_by_id _ _); [|simpl; auto].
    destruct (canMutate _ _); [|simpl; auto].
    rewrite Hshipped. simpl. auto.
  - rewrite download_attendance_csv_eq. destruct (class_by_id _ _); [|simpl; auto].
    destruct (canMutate _ _); [|simpl; auto].
    rewrite Hshipped. simpl. auto.
Qed.

Lemma guarded_request_failures_witness :
  api_router Fixture.e0 Fixture.teacher (GET_attendance "C" Fixture.jan10) Fixture.school
  = (Unhandled InvalidDocument, Fixture.school)
  ∧ api_router Fixture.e0 Fixture.teacher
      (PUT_students "S1" Fixture.move_to_nowhere) Fixture.school
    = (Unhandled TypeError, Fixture.school).
Proof.
  pose proof (guarded_request_failures Fixture.e0 Fixture.teacher
                (GET_attendance "C" Fixture.jan10) Fixture.school eq_refl) as Hread.
  pose proof (guarded_request_failures Fixture.e0 Fixture.teacher
                (PUT_students "S1" Fixture.move_to_nowhere) Fixture.school eq_refl)
    as Hupdate.
  split.
  - destruct (api_router Fixture.e0 Fixture.teacher (GET_attendance "C" Fixture.jan10)
                Fixture.school) as [[rows|c msg|err] s'] eqn:Hrun;
      cbn [fst snd] in Hread.
    + destruct Hread.
    + vm_compute in Hrun. discriminate.
    + destruct Hread as [-> ->]. reflexivity.
  - destruct (api_router Fixture.e0 Fixture.teacher
                (PUT_students "S1" Fixture.move_to_nowhere) Fixture.school)
      as [[st|c msg|err] s'] eqn:Hrun; cbn [fst snd] in Hupdate.
    + vm_compute in Hrun. discriminate.
    + vm_compute in Hrun. discriminate.
    + destruct Hupdate as [-> ->]. reflexivity.
Defined.

(** ** Reads *)

(** X8.  No route that only reads ever writes: listing classes, students or
    users, reading the attendance of a day, building a CSV report, logging
    in and resolving a token all leave the store as it was, on success and
    on every failure. *)
Theorem reads_never_write u s :
  (get_classes u s).2 = s
  ∧ (∀ class_id, (get_students class_id u s).2 = s)
  ∧ (get_users u s).2 = s
  ∧ (∀ class_id d, (get_attendance class_id d u s).2 = s)
  ∧ (∀ class_id start_date end_date,
       (download_attendance_csv class_id start_date end_date u s).2 = s)
  ∧ (∀ bcrypt_verify create_jwt_token login_data,
       (login_user bcrypt_verify create_jwt_token login_data s).2 = s)
  ∧ (∀ decode find_one_by_filter token,
       (get_current_user decode find_one_by_filter token s).2 = s).
Proof.
  repeat split.
  - unfold get_classes. destruct (decide _); reflexivity.
  - unfold get_users. destruct (bool_decide _); reflexivity.
  - intros class_id d. rewrite get_attendance_eq.
    destruct (class_by_id _ _); [|reflexivity].
    destruct (canMutate _ _); [|reflexivity]. destruct (encodes_date s); reflexivity.
  - intros class_id start_date end_date. rewrite download_attendance_csv_eq.
    destruct (class_by_id _ _); [|reflexivity].
    destruct (canMutate _ _); [|reflexivity].
    destruct (encodes_date s); [|reflexivity].
    destruct (date_range_loop _ _ _); reflexivity.
  - intros bcrypt_verify create_jwt_token login_data. rewrite login_user_eq.
    destruct (find_one _ _); [|reflexivity].
    destruct (verify_password _ _ _) as [[|]| |]; reflexivity.
  - intros decode find_one_by_filter token. unfold get_current_user, find_one_user. run.
    destruct (decode token) as [payload| |]; try reflexivity.
    destruct (payload !! "user_id") as [[user_id| |truth as_str]|]; [| | |reflexivity].
    + destruct (negb _); [reflexivity|].
      destruct (find_one _ _); reflexivity.
    + reflexivity.
    + destruct (negb _); [reflexivity|].
      destruct (find_one_by_filter _ _) as [[user|]| |]; reflexivity.
Qed.

(** ** More about the attendance ledger *)

Lemma filter_other_partition class_id d class_id' d' (l : list Attendance.t) :
  (class_id', d') ≠ (class_id, d) →
  filter (in_partition class_id' d') (delete_many (in_partition class_id d) l)
  = filter (in_partition class_id' d') l.
Proof.
  intros Hother. unfold delete_many. induction l as [|a l IH]; [reflexivity|].
  rewrite (filter_cons (λ x, ¬ in_partition class_id d x)).
  destruct (decide (¬ in_partition class_id d a)) as [Ha|Ha].
  - rewrite !filter_cons. destruct (decide (in_partition class_id' d' a)); congruence.
  - rewrite filter_cons. destruct (decide (in_partition class_id' d' a)) as [Ha'|Ha'].
    + destruct Ha. intros [Hc Hd]. destruct Ha' as [Hc' Hd']. congruence.
    + exact IH.
Qed.

Lemma filter_other_partition_rows class_id d class_id' d' (rows : list Attendance.t) :
  (class_id', d') ≠ (class_id, d) →
  Forall (in_partition class_id d) rows →
  filter (in_partition class_id' d') rows = [].
Proof.
  intros Hother. induction 1 as [|a rows [Hc Hd] _ IH]; [reflexivity|].
  rewrite filter_cons. destruct (decide (in_partition class_id' d' a)) as [[Hc' Hd']|];
    [congruence | exact IH].
Qed.

Lemma build_attendance_records_in_partition e class_id d k records rows :
  build_attendance_records e class_id d k records = Returned rows →
  Forall (in_partition class_id d) rows.
Proof.
  revert k rows. induction records as [|record records IH]; intros k rows.
  - intros [= <-]. constructor.
  - rewrite build_attendance_records_cons.
    destruct (record !! "student_id") as [student_id|]; [|discriminate].
    destruct (record !! "status") as [status|]; [|discriminate].
    destruct (validate_str student_id); [|discriminate|discriminate].
    destruct (validate_str status); [|discriminate|discriminate].
    specialize (IH (S k)).
    destruct (build_attendance_records e class_id d (S k) records);
      [|discriminate|discriminate].
    intros [= <-]. constructor; [split; reflexivity | eapply IH; reflexivity].
Qed.

Lemma in_partition_as_stored class_id d (rows : list Attendance.t) :
  Forall (in_partition class_id d) rows →
  Forall (in_partition class_id d) (as_stored <$> rows).
Proof.
  intros Hrows. apply Forall_fmap. eapply Forall_impl; [exact Hrows|].
  intros a Ha. exact Ha.
Qed.

(** X9.  A bulk write touches one partition only: whatever its outcome
    (success, 403, 404 or an exception halfway), the users, the classes and
    the students are as before, and so are the attendance rows, in stored
    order, of every other class and of every other day. *)
Theorem bulk_mark_touches_one_partition e attendance_data u s :
  let s' := (mark_bulk_attendance e attendance_data u s).2 in
  users s' = users s ∧ classes s' = classes s ∧ students s' = students s
  ∧ ∀ class_id d,
      (class_id, d) ≠ (AttendanceBulkCreate.class_id attendance_data,
                       AttendanceBulkCreate.date attendance_data) →
      partition s' class_id d = partition s class_id d.
Proof.
  cbv zeta. rewrite mark_bulk_attendance_eq. cbv zeta.
  destruct (class_by_id _ _); [|repeat split].
  destruct (canMutate _ _); [|repeat split].
  destruct (encodes_date s); [|repeat split].
  destruct (build_attendance_records _ _ _ _ _) as [rows| |] eqn:Hbuild;
    (split; [reflexivity|]); (split; [reflexivity|]); (split; [reflexivity|]);
    intros class_id d Hother; unfold partition, set_attendance, insert_many;
    cbn [snd attendance].
  - rewrite filter_app, filter_other_partition by exact Hother.
    rewrite (filter_other_partition_rows _ _ _ _ (as_stored <$> rows) Hother), app_nil_r;
      [reflexivity|].
    eapply in_partition_as_stored, build_attendance_records_in_partition, Hbuild.
  - apply filter_other_partition, Hother.
  - apply filter_other_partition, Hother.
Qed.

Lemma bulk_mark_touches_one_partition_witness :
  let marked :=
    (mark_bulk_attendance Fixture.e0
       (AttendanceBulkCreate.mk "C" Fixture.jan10 Fixture.marks)
       Fixture.teacher (Fixture.with_date_codec Fixture.school)).2 in
  let next_day :=
    (mark_bulk_attendance Fixture.e0
       (AttendanceBulkCreate.mk "C" (Fixture.jan10 + 1) Fixture.marks)
       Fixture.teacher marked).2 in
  length (partition marked "C" Fixture.jan10) = 2%nat
  ∧ length (partition next_day "C" (Fixture.jan10 + 1)) = 2%nat
  ∧ partition next_day "C" Fixture.jan10 = partition marked "C" Fixture.jan10.
Proof.
  intros marked next_day. split; [reflexivity|]. split; [reflexivity|].
  destruct (bulk_mark_touches_one_partition Fixture.e0
              (AttendanceBulkCreate.mk "C" (Fixture.jan10 + 1) Fixture.marks)
              Fixture.teacher marked) as (_ & _ & _ & Hother).
  apply Hother. discriminate.
Defined.

(** ** Identifiers *)

(** X13.  The guarded routes keep identifiers unique: if the ids of the
    stored classes are pairwise distinct, and so are those of the stored
    students, and the fresh id of the request is not in use, then the same
    holds after the request, whatever the request and its outcome: a
    creation adds the fresh id, an update writes the document back under
    the id of the path, a deletion only removes. *)
Theorem guarded_requests_keep_ids_distinct e u req s :
  ids_distinct s → uuid_fresh e s → ids_distinct (api_router e u req s).2.
Proof.
  intros [Hclasses Hstudents] [Hfresh_class Hfresh_student].
  assert (ids_distinct s) as Hsame by (split; assumption).
  unfold api_router; destruct req; rewrite bind_ret_fmap; cbn [snd].
  - rewrite create_class_eq. destruct (canMutate _ _); [|exact Hsame].
    split; [|exact Hstudents]. cbn [snd classes set_classes].
    apply insert_one_keys_NoDup; [reflexivity | assumption | assumption].
  - rewrite update_class_eq. destruct (class_by_id _ _); [|exact Hsame].
    destruct (canMutate _ _); [|exact Hsame].
    split; [|exact Hstudents]. cbn [snd classes set_classes].
    rewrite (update_one_keys Class.id) by reflexivity. exact Hclasses.
  - rewrite delete_class_eq. destruct (class_by_id _ _); [|exact Hsame].
    destruct (canMutate _ _); [|exact Hsame].
    split; [|exact Hstudents]. cbn [snd classes set_classes].
    apply (delete_one_keys_NoDup Class.id), Hclasses.
  - rewrite create_student_eq. destruct (class_by_id _ _); [|exact Hsame].
    destruct (canMutate _ _); [|exact Hsame].
    split; [exact Hclasses|]. cbn [snd students set_students].
    apply insert_one_keys_NoDup; [reflexivity | assumption | assumption].
  - assert (ids_distinct (student_updated e student_id student_data s).2) as Hupdated.
    { split; [exact Hclasses|]. cbn [snd student_updated students set_students].
      rewrite (update_one_keys Student.id) by reflexivity. exact Hstudents. }
    rewrite update_student_eq. destruct (student_by_id _ _); [|exact Hsame].
    destruct (class_by_id _ _).
    + destruct (canMutate _ _); [exact Hupdated | exact Hsame].
    + destruct (bool_decide _); [exact Hupdated | exact Hsame].
  - assert (ids_distinct (student_deleted student_id s).2) as Hdeleted.
    { split; [exact Hclasses|]. cbn [snd student_deleted students set_students].
      apply (delete_one_keys_NoDup Student.id), Hstudents. }
    rewrite delete_student_eq. destruct (student_by_id _ _); [|exact Hsame].
    destruct (class_by_id _ _).
    + destruct (canMutate _ _); [exact Hdeleted | exact Hsame].
    + destruct (bool_decide _); [exact Hdeleted | exact Hsame].
  - rewrite mark_bulk_attendance_eq. cbv zeta.
    destruct (class_by_id _ _); [|exact Hsame].
    destruct (canMutate _ _); [|exact Hsame].
    destruct (encodes_date s); [|exact Hsame].
    destruct (build_attendance_records _ _ _ _ _); exact Hsame.
  - rewrite get_attendance_eq. destruct (class_by_id _ _); [|exact Hsame].
    destruct (canMutate _ _); [|exact Hsame]. destruct (encodes_date s); exact Hsame.
  - rewrite download_attendance_csv_eq. destruct (class_by_id _ _); [|exact Hsame].
    destruct (canMutate _ _); [|exact Hsame].
    destruct (encodes_date s); [|exact Hsame].
    destruct (date_range_loop _ _ _); exact Hsame.
Qed.

Lemma guarded_requests_keep_ids_distinct_witness :
  ids_distinct
    (api_router Fixture.e0 Fixture.teacher
       (POST_students (StudentCreate.mk "Tim" "tim@school" "C" "3"))
       Fixture.school).2.
Proof.
  apply (guarded_requests_keep_ids_distinct Fixture.e0 Fixture.teacher
           (POST_students (StudentCreate.mk "Tim" "tim@school" "C" "3"))
           Fixture.school).
  - split; apply (bool_decide_unpack _); vm_compute; exact I.
  - split; apply (bool_decide_unpack _); vm_compute; exact I.
Defined.

(** ** Deleting, handing over, creating *)

Lemma delete_class_returns class_id u s message s' :
  delete_class class_id u s = (Returned message, s') →
  s' = set_classes (delete_one (λ c, Class.id c = class_id)) s.
Proof.
  rewrite delete_class_eq. destruct (class_by_id _ _); [|discriminate].
  destruct (canMutate _ _); [|discriminate]. intros [= _ <-]. reflexivity.
Qed.

(** X14.  Deleting a class does not cascade.  With pairwise distinct class
    ids, a deletion that succeeds removes the class of that id and no
    other, and leaves every student and every attendance row in place; the
    students of the deleted class become orphans: a non-admin who then
    deletes such a student, or updates it with a payload that still names
    the deleted class, gets no 403 or 404 but the [TypeError] of the
    unguarded class lookup. *)
Theorem delete_class_leaves_orphans class_id u s message s' :
  NoDup (Class.id <$> classes s) →
  delete_class class_id u s = (Returned message, s') →
  class_by_id s' class_id = None
  ∧ (∀ c, c ∈ classes s → Class.id c ≠ class_id → c ∈ classes s')
  ∧ users s' = users s ∧ students s' = students s ∧ attendance s' = attendance s
  ∧ ∀ student_id st actor,
      student_by_id s' student_id = Some st →
      Student.class_id st = class_id →
      UserResponse.role actor ≠ "admin" →
      delete_student student_id actor s' = (Unhandled TypeError, s')
      ∧ ∀ e student_data,
          StudentCreate.class_id student_data = class_id →
          update_student e student_id student_data actor s'
          = (Unhandled TypeError, s').
Proof.
  intros Hdistinct Hrun. apply delete_class_returns in Hrun as ->.
  assert (class_by_id (set_classes (delete_one (λ c, Class.id c = class_id)) s)
            class_id = None) as Hgone.
  { unfold class_by_id, set_classes. cbn [classes].
    apply (find_one_delete_one Class.id), Hdistinct. }
  split; [exact Hgone|]. split.
  { intros c Hc Hother. unfold set_classes. cbn [classes].
    apply delete_one_other; assumption. }
  split; [reflexivity|]. split; [reflexivity|]. split; [reflexivity|].
  intros student_id st actor Hst Hclass Hrole. split.
  - rewrite delete_student_eq, Hst, Hclass, Hgone.
    rewrite bool_decide_eq_false_2 by exact Hrole. reflexivity.
  - intros e student_data Hpayload.
    rewrite update_student_eq, Hst, Hpayload, Hgone.
    rewrite bool_decide_eq_false_2 by exact Hrole. reflexivity.
Qed.

Lemma delete_class_leaves_orphans_witness :
  let s' := (delete_class "C" Fixture.teacher Fixture.school).2 in
  class_by_id s' "C" = None
  ∧ students s' = students Fixture.school
  ∧ delete_student "S1" Fixture.teacher s' = (Unhandled TypeError, s').
Proof.
  cbv zeta.
  destruct (delete_class_leaves_orphans "C" Fixture.teacher Fixture.school
              "Class deleted successfully"
              (delete_class "C" Fixture.teacher Fixture.school).2)
    as (Hgone & _ & _ & Hstudents & _ & Horphan).
  - apply (bool_decide_unpack _). vm_compute. exact I.
  - reflexivity.
  - split; [exact Hgone|]. split; [exact Hstudents|].
    apply (Horphan "S1" Fixture.s1 Fixture.teacher); [reflexivity | reflexivity |].
    discriminate.
Defined.

(** X15.  A class update can hand the class over.  Creating a class for
    another teacher is refused to a non-admin, but updating one's own class
    with a payload that names another teacher goes through; from then on
    the former owner is refused with 403 when updating or deleting that
    class. *)
Theorem update_class_hands_class_over e class_id class_data u s c :
  class_by_id s class_id = Some c →
  UserResponse.role u ≠ "admin" →
  UserResponse.id u = Class.teacher_id c →
  ClassCreate.teacher_id class_data ≠ UserResponse.id u →
  create_class e class_data u s
  = (HTTPException 403 "Not authorized to create class for another teacher", s)
  ∧ ∃ updated s',
      update_class e class_id class_data u s = (Returned updated, s')
      ∧ class_owner s' class_id = Some (ClassCreate.teacher_id class_data)
      ∧ (∀ e' class_data',
           update_class e' class_id class_data' u s'
           = (HTTPException 403 "Not authorized to update this class", s'))
      ∧ delete_class class_id u s'
        = (HTTPException 403 "Not authorized to delete this class", s').
Proof.
  intros Hclass Hrole Hown Hother.
  assert (canMutate u (ClassCreate.teacher_id class_data) = false) as Hdenied.
  { apply canMutate_false. intros [?|?]; [contradiction | congruence]. }
  split; [rewrite create_class_eq, Hdenied; reflexivity|].
  rewrite update_class_eq, Hclass.
  assert (canMutate u (Class.teacher_id c) = true) as ->
    by (apply canMutate_true; right; exact Hown).
  eexists _, _. split; [reflexivity|].
  assert (class_by_id
            (set_classes
               (update_one (λ c0, Class.id c0 = class_id)
                  (Class_set_id class_id (Class_of_payload e class_data))) s)
            class_id
          = Some (as_stored (Class_set_id class_id (Class_of_payload e class_data))))
    as Hfound.
  { apply class_by_id_updated. rewrite Hclass. eauto. }
  split; [unfold class_owner; rewrite Hfound; reflexivity|]. split.
  - intros e' class_data'. rewrite update_class_eq, Hfound.
    cbn [as_stored Class_bson Class_set_id Class_of_payload Class.teacher_id].
    rewrite Hdenied. reflexivity.
  - rewrite delete_class_eq, Hfound.
    cbn [as_stored Class_bson Class_set_id Class_of_payload Class.teacher_id].
    rewrite Hdenied. reflexivity.
Qed.

Lemma update_class_hands_class_over_witness :
  ∃ updated s',
    update_class Fixture.e0 "C" (ClassCreate.mk "Maths" "Algebra" "T2")
      Fixture.teacher Fixture.school = (Returned updated, s')
    ∧ class_owner s' "C" = Some "T2"
    ∧ delete_class "C" Fixture.teacher s'
      = (HTTPException 403 "Not authorized to delete this class", s').
Proof.
  destruct (update_class_hands_class_over Fixture.e0 "C"
              (ClassCreate.mk "Maths" "Algebra" "T2") Fixture.teacher
              Fixture.school Fixture.maths)
    as (_ & updated & s' & Hrun & Howner & _ & Hdelete);
    [reflexivity | discriminate | reflexivity | discriminate |].
  exists updated, s'. split; [exact Hrun|]. split; [exact Howner | exact Hdelete].
Defined.

Lemma class_by_id_inserted new_class s class_id :
  class_by_id (set_classes (insert_one new_class) s) class_id =
  match class_by_id s class_id with
  | Some c => Some c
  | None =>
    if decide (Class.id new_class = class_id) then Some (as_stored new_class) else None
  end.
Proof.
  unfold class_by_id, set_classes, insert_one. cbn [classes].
  rewrite find_one_app, find_one_cons. reflexivity.
Qed.

(** X16.  A class that has just been created is there for its creator:
    when the fresh id is the id of no stored class, a successful creation
    returns a document with the fresh id, the payload's teacher and the
    time of the request; what is afterwards found under its id is that
    document as the store keeps it, the microseconds of [created_at]
    dropped; every other lookup by id is as before; and the creator passes
    the ownership check on the new class, so that creating a student in it
    succeeds at once. *)
Theorem create_class_then_use e class_data u s new_class s' :
  class_by_id s (uuid4 e 0) = None →
  create_class e class_data u s = (Returned new_class, s') →
  Class.id new_class = uuid4 e 0
  ∧ Class.teacher_id new_class = ClassCreate.teacher_id class_data
  ∧ Class.created_at new_class = utcnow e 0
  ∧ class_by_id s' (uuid4 e 0)
    = Some (Class.mk (uuid4 e 0) (ClassCreate.name class_data)
              (ClassCreate.subject class_data) (ClassCreate.teacher_id class_data)
              (bson_datetime (utcnow e 0)))
  ∧ (∀ class_id, class_id ≠ uuid4 e 0 → class_by_id s' class_id = class_by_id s class_id)
  ∧ ∀ e' student_data,
      StudentCreate.class_id student_data = uuid4 e 0 →
      (create_student e' student_data u s').1
      = Returned (Student_of_payload e' student_data).
Proof.
  intros Hfresh. rewrite create_class_eq.
  destruct (canMutate u (ClassCreate.teacher_id class_data)) eqn:Hcan; [|discriminate].
  intros [= <- <-]. split; [reflexivity|]. split; [reflexivity|]. split; [reflexivity|].
  assert (class_by_id (set_classes (insert_one (Class_of_payload e class_data)) s)
            (uuid4 e 0) = Some (as_stored (Class_of_payload e class_data))) as Hfound.
  { rewrite class_by_id_inserted, Hfresh. cbn [Class_of_payload Class.id].
    rewrite decide_True by reflexivity. reflexivity. }
  split; [exact Hfound|]. split.
  - intros class_id Hother. rewrite class_by_id_inserted.
    destruct (class_by_id s class_id); [reflexivity|].
    cbn [Class_of_payload Class.id]. rewrite decide_False by congruence. reflexivity.
  - intros e' student_data Hpayload. rewrite create_student_eq, Hpayload, Hfound.
    cbn [as_stored Class_bson Class_of_payload Class.teacher_id].
    rewrite Hcan. reflexivity.
Qed.

Lemma create_class_then_use_witness :
  let s' := (create_class Fixture.e0 (ClassCreate.mk "Music" "Choir" "T")
               Fixture.teacher Fixture.school).2 in
  (create_class Fixture.e0 (ClassCreate.mk "Music" "Choir" "T")
     Fixture.teacher Fixture.school).1
  = Returned (Class.mk "uuid-0" "Music" "Choir" "T" 5000250)
  ∧ class_by_id s' "uuid-0" = Some (Class.mk "uuid-0" "Music" "Choir" "T" 5000000)
  ∧ (create_student Fixture.e0 (StudentCreate.mk "Tim" "tim@school" "uuid-0" "3")
       Fixture.teacher s').1
    = Returned (Student.mk "uuid-0" "Tim" "tim@school" "uuid-0" "3" 5000250).
Proof.
  cbv zeta. split; [reflexivity|].
  destruct (create_class_then_use Fixture.e0 (ClassCreate.mk "Music" "Choir" "T")
              Fixture.teacher Fixture.school
              (Class.mk "uuid-0" "Music" "Choir" "T" 5000250)
              (create_class Fixture.e0 (ClassCreate.mk "Music" "Choir" "T")
                 Fixture.teacher Fixture.school).2)
    as (_ & _ & _ & Hfound & _ & Hstudent); [reflexivity | reflexivity |].
  split; [exact Hfound|].
  apply (Hstudent Fixture.e0 (StudentCreate.mk "Tim" "tim@school" "uuid-0" "3")).
  reflexivity.
Defined.

Lemma delete_student_returns student_id u s message s' :
  delete_student student_id u s = (Returned message, s') →
  s' = set_students (delete_one (λ st, Student.id st = student_id)) s.
Proof.
  rewrite delete_student_eq. destruct (student_by_id _ _); [|discriminate].
  destruct (class_by_id _ _).
  - destruct (canMutate _ _); [|discriminate]. intros [= _ <-]. reflexivity.
  - destruct (bool_decide _); [|discriminate]. intros [= _ <-]. reflexivity.
Qed.

(** X17.  Deleting a student removes the student and nothing else.  With
    pairwise distinct student ids, after a deletion that succeeds no
    student has that id, every other student is still stored, and the
    classes and the whole ledger, the rows of the deleted student
    included, are as before; the attendance of a day, read afterwards, has
    no entry for the deleted student. *)
Theorem delete_student_removes_only_the_student student_id u s message s' :
  NoDup (Student.id <$> students s) →
  delete_student student_id u s = (Returned message, s') →
  student_by_id s' student_id = None
  ∧ (∀ st, st ∈ students s → Student.id st ≠ student_id → st ∈ students s')
  ∧ users s' = users s ∧ classes s' = classes s ∧ attendance s' = attendance s
  ∧ ∀ class_id d reader rows s'',
      get_attendance class_id d reader s' = (Returned rows, s'') →
      ∀ row, row ∈ rows → AttendanceRow.student_id row ≠ student_id.
Proof.
  intros Hdistinct Hrun. apply delete_student_returns in Hrun as ->.
  assert (student_by_id (set_students (delete_one (λ st, Student.id st = student_id)) s)
            student_id = None) as Hgone.
  { unfold student_by_id, set_students. cbn [students].
    apply (find_one_delete_one Student.id), Hdistinct. }
  split; [exact Hgone|]. split.
  { intros st Hst Hother. unfold set_students. cbn [students].
    apply delete_one_other; assumption. }
  split; [reflexivity|]. split; [reflexivity|]. split; [reflexivity|].
  intros class_id d reader rows s''. rewrite get_attendance_eq.
  destruct (class_by_id _ _); [|discriminate].
  destruct (canMutate _ _); [|discriminate].
  unfold set_students at 1. cbn [encodes_date].
  destruct (encodes_date s); [|discriminate].
  intros [= <- _] row Hrow Hid.
  apply list_elem_of_fmap in Hrow as (st & -> & Hst).
  apply elem_of_take in Hst as (i & Hst & _). apply list_elem_of_lookup_2 in Hst.
  apply list_elem_of_filter in Hst as [_ Hst].
  unfold student_by_id in Hgone. eapply find_one_None in Hgone; [|exact Hst].
  apply Hgone. exact Hid.
Qed.

Lemma delete_student_removes_only_the_student_witness :
  let s' := (delete_student "S1" Fixture.teacher Fixture.school).2 in
  student_by_id s' "S1" = None
  ∧ students s' = [Fixture.s2; Fixture.orphan]
  ∧ attendance s' = attendance Fixture.school.
Proof.
  cbv zeta.
  destruct (delete_student_removes_only_the_student "S1" Fixture.teacher
              Fixture.school "Student deleted successfully"
              (delete_student "S1" Fixture.teacher Fixture.school).2)
    as (Hgone & _ & _ & _ & Hledger & _).
  - apply (bool_decide_unpack _). vm_compute. exact I.
  - reflexivity.
  - split; [exact Hgone|]. split; [reflexivity | exact Hledger].
Defined.

(** ** More about the CSV report *)



